(** * PyPartMC: the AeroMode binding layer (src/aero_mode.hpp)

    A shallow embedding of the C++ wrapper [struct AeroMode] around the
    Fortran aerosol-mode object, and the properties of its marshalling
    discipline: JSON validation before construction, dimension checks on
    array setters, the type-discriminator table, scalar round trips and
    the size-then-fill buffer protocol. *)

From Stdlib Require Import ZArith Lia PrimFloat.
From stdpp Require Import base option list gmap strings.

Local Open Scope string_scope.
Local Open Scope list_scope.
Local Open Scope Z_scope.

(** ** C [int]: 32-bit two's complement *)

Module CInt.

Definition INT_MIN : Z := -2147483648.
Definition INT_MAX : Z := 2147483647.

Definition in_range (z : Z) : bool := (INT_MIN <=? z) && (z <=? INT_MAX).

(** A value of C type [int]: an integer together with the evidence that
    it is representable. *)
Record int : Type := mk_int { int_val : Z; int_ok : in_range int_val = true }.

(** Conversion of an arbitrary integer to [int]: reduction modulo 2^32
    into the signed range (what [int len = data.size()] does on the
    supported compilers). *)
Definition wrap (z : Z) : Z := (z + 2147483648) mod 4294967296 - 2147483648.

(** [(unsigned int) x]. *)
Definition to_unsigned (z : Z) : Z := z mod 4294967296.

Definition zero : int := mk_int 0 eq_refl.

(** The second branch is never taken ([wrap] lands in the range); the
    match makes [of_Z] compute on literals. *)
Definition of_Z (z : Z) : int :=
  match in_range (wrap z) as b return in_range (wrap z) = b → int with
  | true => fun H => mk_int (wrap z) H
  | false => fun _ => zero
  end eq_refl.

(** [++x] and [x + 1] on an [int]; overflow, undefined in C++, wraps. *)
Definition succ (x : int) : int := of_Z (int_val x + 1).

Definition eqb (x y : int) : bool := int_val x =? int_val y.

End CInt.

Export CInt.

(** ** JSON documents (nlohmann::json)

    An object is a map from keys to values, as in the library
    ([std::map]); [JInt] stands for both integer kinds. *)

#[local] Unset Elimination Schemes.
Inductive json : Type :=
  | JNull
  | JBool (b : bool)
  | JInt (z : Z)
  | JFloat (f : float)
  | JString (s : string)
  | JArray (l : list json)
  | JObject (m : gmap string json).
#[local] Set Elimination Schemes.

(** ** C++ exceptions

    An exception is recorded by the dynamic type of the object thrown and
    its message.  ([std::invalid_argument] derives from
    [std::logic_error] in C++; the two constructors keep the objects
    apart, as a handler that looks at the dynamic type does.) *)

Inductive exn : Type :=
  | runtime_error (what : string)      (* std::runtime_error *)
  | invalid_argument (what : string)   (* std::invalid_argument *)
  | logic_error (what : string)        (* std::logic_error *)
  | json_type_error (id : Z)           (* nlohmann::json::type_error *)
  | json_invalid_iterator (id : Z)     (* nlohmann::json::invalid_iterator *)
  | bad_alloc.                         (* std::bad_alloc *)

Inductive result (A : Type) : Type :=
  | ok (a : A)
  | throw (e : exn).
Arguments ok {A} a.
Arguments throw {A} e.

Definition is_ok {A} (r : result A) : bool :=
  match r with ok _ => true | throw _ => false end.

(** Sequencing of code that may throw but touches no foreign state. *)
Definition rbind {A B} (r : result A) (k : A → result B) : result B :=
  match r with ok a => k a | throw e => throw e end.

Notation "'let?' x ':=' e1 'in' e2" := (rbind e1 (fun x => e2))
  (at level 10, x name, e1 at level 100, e2 at level 200, only parsing).

(** [a || b] where evaluating [b] may throw: [b] is not evaluated when
    [a] holds. *)
Definition or_else (a : bool) (b : result bool) : result bool :=
  if a then ok true else b.
Infix "||?" := or_else (at level 60, right associativity).

Module Json.

(** [j.size()]: 0 for null, the number of elements of an array or an
    object, 1 for every scalar. *)
Definition size (j : json) : nat :=
  match j with
  | JNull => 0%nat
  | JArray l => length l
  | JObject m => base.size m
  | _ => 1%nat
  end.

Definition is_object (j : json) : bool :=
  match j with JObject _ => true | _ => false end.

Definition is_array (j : json) : bool :=
  match j with JArray _ => true | _ => false end.

(** [j.find(key)]: [None] stands for [j.end()], which is also what a
    non-object returns. *)
Definition find (key : string) (j : json) : option json :=
  match j with JObject m => m !! key | _ => None end.

(** [*it] for an iterator returned by [find]. Dereferencing [end()] is
    undefined in the source; every use in this file is guarded by a
    preceding [find(..) == end()] test. *)
Definition deref (it : option json) : json := default JNull it.

(** [j[key]] on a const object: the key has to be present (an assertion
    in the library); every use in this file follows a successful
    [find]. *)
Definition at_key (key : string) (j : json) : json := deref (find key j).

(** [j[idx]] on a non-const value: an array yields its element (a null
    that was appended when [idx] is past the end), null is turned into
    an array first, everything else throws type_error 305. *)
Definition index (j : json) (idx : nat) : result json :=
  match j with
  | JArray l => ok (default JNull (l !! idx))
  | JNull => ok JNull
  | _ => throw (json_type_error 305)
  end.

(** [j.begin().value()]: the first member of an object or array, a
    scalar itself; on null, and on an empty container, the iterator is
    [end()] and has no value (invalid_iterator 214; undefined for the
    empty containers, which the constructor never reaches).  On an
    object the members come in key order; with a single member, the
    only case in which the constructor evaluates it, that member is the
    first. *)
Definition begin_value (j : json) : result json :=
  match j with
  | JNull => throw (json_invalid_iterator 214)
  | JArray l =>
      match head l with Some v => ok v | None => throw (json_invalid_iterator 214) end
  | JObject m =>
      match head (map_to_list m) with
      | Some kv => ok (snd kv)
      | None => throw (json_invalid_iterator 214)
      end
  | _ => ok j
  end.

(** [j == "literal"]: the literal is converted to a JSON string. *)
Definition eq_string (j : json) (s : string) : bool :=
  match j with JString s' => bool_decide (s' = s) | _ => false end.

(** [it != j.end()]. *)
Definition is_Some_b (it : option json) : bool :=
  match it with Some _ => true | None => false end.

(** The keys of an object, none for any other value. *)
Definition keys (j : json) : list string :=
  match j with JObject m => (map_to_list m).*1 | _ => [] end.

End Json.

(** ** The foreign ABI

    The [extern "C"] entry points the operations below go through, each
    a constructor of [fcall] carrying the arguments the wrapper passes
    in ([f_aero_mode_num_conc] and the name accessors are left out with
    their callers).  Output parameters are read from the engine through
    the [out_*] observers. *)

Inductive fcall : Type :=
  | f_aero_mode_ctor
  | f_aero_mode_dtor
  | f_aero_mode_get_num_conc
  | f_aero_mode_set_num_conc (val : float)
  | f_aero_mode_get_n_spec
  | f_aero_mode_get_vol_frac (arr_size : int)
  | f_aero_mode_set_vol_frac (arr_data : list float) (arr_size : int)
  | f_aero_mode_get_vol_frac_std (arr_size : int)
  | f_aero_mode_set_vol_frac_std (arr_data : list float) (arr_size : int)
  | f_aero_mode_get_char_radius
  | f_aero_mode_set_char_radius (val : float)
  | f_aero_mode_get_gsd
  | f_aero_mode_set_gsd (val : float)
  | f_aero_mode_set_type (val : int)
  | f_aero_mode_get_type
  | f_aero_mode_set_sampled (rad_data num_conc_data : list float) (arr_size : int)
  | f_aero_mode_from_json (aero_data_ptr : N) (input : json)
  | f_aero_mode_get_sample_num_conc (data_size : int)
  | f_aero_mode_get_sample_radius (data_size : int)
  | f_aero_mode_get_sample_bins.

(** The Fortran side.  [step] is the effect of an entry point on the
    foreign object; an observer gives what a getter writes through its
    output pointer in a given state.  For the array getters the observer
    gives, for a buffer of [arr_size] elements, the value written at each
    index ([None]: the element is left as it was). *)
Class Engine (S : Type) : Type := {
  step : S → fcall → S;
  out_num_conc : S → float;
  out_char_radius : S → float;
  out_gsd : S → float;
  out_n_spec : S → int;
  out_type : S → int;
  out_sample_bins : S → int;
  out_vol_frac : S → int → nat → option float;
  out_vol_frac_std : S → int → nat → option float;
  out_sample_radius : S → int → nat → option float;
  out_sample_num_conc : S → int → nat → option float;
  (** Modelled from the spec: [JSONResourceGuard::check_parameters]
      (json_resource.hpp is not among the sources): after the foreign
      constructor has consumed the document, a key that was never read
      is reported as an error. *)
  check_parameters : S → json → result unit
}.

(** The wrapper runs against one foreign object and the log of the
    boundary calls made so far. *)
Record world (S : Type) : Type := World { foreign : S; trace : list fcall }.
Arguments World {S} _ _.
Arguments foreign {S} _.
Arguments trace {S} _.

(** Wrapper code: may throw, may call into the engine. *)
Definition M (S A : Type) : Type := world S → result A * world S.

Section Monad.
Context {S : Type} `{!Engine S}.

Definition ret {A} (a : A) : M S A := fun w => (ok a, w).

Definition raise {A} (e : exn) : M S A := fun w => (throw e, w).

Definition bind {A B} (m : M S A) (k : A → M S B) : M S B :=
  fun w => match m w with
           | (ok a, w') => k a w'
           | (throw e, w') => (throw e, w')
           end.

(** Lifting of code that makes no foreign call. *)
Definition lift {A} (r : result A) : M S A := fun w => (r, w).

(** The world once the boundary call [c] has returned: the engine has
    moved on and the call is logged. *)
Definition after (c : fcall) (w : world S) : world S :=
  World (step (foreign w) c) (trace w ++ [c]).

Definition call (c : fcall) : M S unit := fun w => (ok tt, after c w).

(** Reading an output parameter of the call just made. *)
Definition observe {A} (f : S → A) : M S A := fun w => (ok (f (foreign w)), w).

(** Stack unwinding: when [m] throws, [cleanup] runs and the exception
    propagates. *)
Definition unwind {A} (m : M S A) (cleanup : M S unit) : M S A :=
  fun w => match m w with
           | (ok a, w') => (ok a, w')
           | (throw e, w') => (throw e, snd (cleanup w'))
           end.

End Monad.

Notation "'let*' x ':=' e1 'in' e2" := (bind e1 (fun x => e2))
  (at level 10, x name, e1 at level 100, e2 at level 200, only parsing).
Notation "e1 ;;; e2" := (bind e1 (fun _ => e2))
  (at level 100, e2 at level 200, right associativity, only parsing).

(** ** PMCResource: the owning handle *)

Module PMCResource.

(** Modelled from the spec: [PMCResource] (pmc_resource.hpp is not among
    the sources).  A handle owns one native resource; it is built from
    the paired constructor and destructor entry points, calls the
    constructor once when it is acquired, and calls the destructor when
    it is released, guarded by a consumed flag so that a second release
    does nothing.  The raw pointer is never dereferenced by the wrapper:
    the resource it stands for is the [foreign] component of the
    world. *)
Record t : Type := Handle { f_ctor : fcall; f_dtor : fcall; released : bool }.

Section Ops.
Context {S : Type} `{!Engine S}.

(** Modelled from the spec: [acquire(ctor)], the C++ constructor
    [PMCResource(f_ctor, f_dtor)]. *)
Definition acquire (ctor dtor : fcall) : M S t :=
  call ctor ;;; ret (Handle ctor dtor false).

(** Modelled from the spec: [release()], also run by the C++
    destructor when the lifetime of the handle ends. *)
Definition release (h : t) : M S t :=
  if released h then ret h
  else call (f_dtor h) ;;; ret (Handle (f_ctor h) (f_dtor h) true).

(** Modelled from the spec: the teardown of the handle as a member, run
    by stack unwinding and at the end of the owner's lifetime. *)
Definition teardown (h : t) : M S unit := release h ;;; ret tt.

End Ops.

End PMCResource.

(** ** InputJSONResource *)

Module InputJSONResource.

(** Modelled from the spec: [InputJSONResource::unique_keys]
    (json_resource.hpp is not among the sources).  The entries of the
    list, each a mapping, must have pairwise-distinct keys across the
    list. *)
Definition unique_keys (j : json) : bool :=
  match j with
  | JArray l => bool_decide (NoDup (concat (Json.keys <$> l)))
  | _ => true
  end.

End InputJSONResource.

(** ** AeroData: the species table a mode is built against

    aero_data.hpp is not among the sources; of an [AeroData] only the raw
    pointer of its handle crosses the boundary here. *)

Module AeroData.
(** Modelled from the spec: a sibling wrapper the mode borrows, here its
    raw pointer. *)
Record t : Type := { ptr : N }.
End AeroData.

(** ** AeroMode *)

Module AeroMode.

Record t : Type := { ptr : PMCResource.t }.

(** [std::valarray<double> data(len)] with [len] an [int]: the count is
    converted to [size_t], so a negative one asks for more than can be
    allocated; otherwise [len] zeros. *)
Definition valarray (len : int) : result (list float) :=
  if int_val len <? 0 then throw bad_alloc
  else ok (replicate (Z.to_nat (int_val len)) 0%float).

(** What a caller-owned buffer holds after a foreign fill call: the
    callee writes elements, it cannot change the capacity. *)
Definition fill (buf : list float) (written : nat → option float) : list float :=
  imap (fun i old => default old (written i)) buf.

(** [std::set<std::string>({"mass_frac", "mode_type"})], in iteration
    (sorted) order. *)
Definition required_keys : list string := ["mass_frac"; "mode_type"].

Fixpoint check_required_keys (keys : list string) (mode : json) : result unit :=
  match keys with
  | [] => ok tt
  | key :: keys' =>
      match Json.find key mode with
      | None =>
          throw (runtime_error ("mode parameters dict must include key '" +:+ key +:+ "'"))
      | Some _ => check_required_keys keys' mode
      end
  end.

Definition check_mode_json (mode : json) : result unit :=
  let? _ := check_required_keys required_keys mode in
  let mass_frac := Json.at_key "mass_frac" mode in
  if negb (Json.is_array mass_frac) then
    throw (runtime_error "mass_frac value must be a list of single-element dicts")
  else if negb (InputJSONResource.unique_keys mass_frac) then
    throw (runtime_error "mass_frac keys must be unique")
  else if Json.eq_string (Json.at_key "mode_type" mode) "sampled" then
    match Json.find "size_dist" mode with
    | None => throw (runtime_error "size_dist key must be set for mode_type=sampled")
    | Some _ =>
        let sd := Json.at_key "size_dist" mode in
        let? bad :=
          negb (Json.size sd =? 2)%nat ||?
          (let? sd0 := Json.index sd 0 in negb (Json.is_object sd0) ||?
          (let? sd0 := Json.index sd 0 in negb (Json.size sd0 =? 1)%nat ||?
          (let? sd1 := Json.index sd 1 in negb (Json.size sd1 =? 1)%nat ||?
          (let? sd0 := Json.index sd 0 in negb (Json.is_Some_b (Json.find "diam" sd0)) ||?
          (let? sd1 := Json.index sd 1 in
           ok (negb (Json.is_Some_b (Json.find "num_conc" sd1))))))))
        in
        if bad then
          throw (runtime_error "size_dist value must be an iterable of two single-element dicts (first with 'diam', second with 'num_conc' as keys)")
        else
          let? sd0 := Json.index sd 0 in
          let? sd1 := Json.index sd 1 in
          let diam := Json.deref (Json.find "diam" sd0) in
          let num_conc := Json.deref (Json.find "num_conc" sd1) in
          if negb (Json.size diam =? Json.size num_conc + 1)%nat then
            throw (runtime_error "size_dist['num_conc'] must have len(size_dist['diam'])-1 elements")
          else ok tt
    end
  else ok tt.

(** [AeroMode::types()]. *)
Definition types : list string := ["log_normal"; "exp"; "mono"; "sampled"].

(** The search loop of [set_type]: [++type] on every element visited,
    [break] on the first match. *)
Fixpoint set_type_loop (els : list string) (mode_type : string)
    (found : bool) (type : int) : bool * int :=
  match els with
  | [] => (found, type)
  | el :: els' =>
      let type := CInt.succ type in
      if bool_decide (el = mode_type) then (true, type)
      else set_type_loop els' mode_type found type
  end.

Section Wrapper.
Context {S : Type} `{!Engine S}.

(** [AeroMode()]. *)
Definition AeroMode_default : M S t :=
  let* p := PMCResource.acquire f_aero_mode_ctor f_aero_mode_dtor in
  ret {| ptr := p |}.

(** [AeroMode(AeroData &aero_data, const nlohmann::json &json)]: the
    member [ptr] is initialised first; when the body throws, the
    member is destroyed while the exception propagates. *)
Definition AeroMode (aero_data : AeroData.t) (json : json) : M S t :=
  let* p := PMCResource.acquire f_aero_mode_ctor f_aero_mode_dtor in
  unwind
    (let* bad := lift (negb (Json.size json =? 1)%nat ||?
                       negb (Json.is_object json) ||?
                       (let? v := Json.begin_value json in
                        ok (negb (Json.is_object v)))) in
     (if bad then
        raise (runtime_error "Single-element dict expected with mode name as key and mode params dict as value")
      else ret tt) ;;;
     let* mode := lift (Json.begin_value json) in
     lift (check_mode_json mode) ;;;
     (* the JSONResourceGuard is set up here: no boundary call *)
     call (f_aero_mode_from_json (AeroData.ptr aero_data) json) ;;;
     let* checked := observe (fun s => check_parameters s json) in
     lift checked ;;;
     ret {| ptr := p |})
    (PMCResource.teardown p).

(** End of the lifetime of an [AeroMode]: its member is destroyed. *)
Definition destroy (self : t) : M S unit := PMCResource.teardown (ptr self).

Definition get_num_conc (self : t) : M S float :=
  call f_aero_mode_get_num_conc ;;;
  observe out_num_conc.

Definition set_num_conc (self : t) (val : float) : M S unit :=
  call (f_aero_mode_set_num_conc val).

Definition set_vol_frac (self : t) (data : list float) : M S unit :=
  let len := CInt.of_Z (Z.of_nat (length data)) in
  call f_aero_mode_get_n_spec ;;;
  let* n_spec := observe out_n_spec in
  if negb (CInt.eqb len n_spec) then
    raise (runtime_error "AeroData size mismatch")
  else call (f_aero_mode_set_vol_frac data len).

Definition get_vol_frac (self : t) : M S (list float) :=
  call f_aero_mode_get_n_spec ;;;
  let* len := observe out_n_spec in
  let* data := lift (valarray len) in
  call (f_aero_mode_get_vol_frac len) ;;;
  let* written := observe (fun s => out_vol_frac s len) in
  ret (fill data written).

Definition set_vol_frac_std (self : t) (data : list float) : M S unit :=
  let len := CInt.of_Z (Z.of_nat (length data)) in
  call f_aero_mode_get_n_spec ;;;
  let* n_spec := observe out_n_spec in
  if negb (CInt.eqb len n_spec) then
    raise (runtime_error "AeroData size mismatch")
  else call (f_aero_mode_set_vol_frac_std data len).

Definition get_vol_frac_std (self : t) : M S (list float) :=
  call f_aero_mode_get_n_spec ;;;
  let* len := observe out_n_spec in
  let* data := lift (valarray len) in
  call (f_aero_mode_get_vol_frac_std len) ;;;
  let* written := observe (fun s => out_vol_frac_std s len) in
  ret (fill data written).

Definition get_char_radius (self : t) : M S float :=
  call f_aero_mode_get_char_radius ;;;
  observe out_char_radius.

Definition set_char_radius (self : t) (val : float) : M S unit :=
  call (f_aero_mode_set_char_radius val).

Definition get_gsd (self : t) : M S float :=
  call f_aero_mode_get_gsd ;;;
  observe out_gsd.

Definition set_gsd (self : t) (val : float) : M S unit :=
  call (f_aero_mode_set_gsd val).

Definition set_sampled (self : t) (sample_diams sample_num_conc : list float)
    : M S unit :=
  let len := CInt.of_Z (Z.of_nat (length sample_diams)) in
  let len_num_conc := CInt.of_Z (Z.of_nat (length sample_num_conc)) in
  if negb (CInt.eqb len (CInt.succ len_num_conc)) then
    raise (runtime_error "Diameter and number size mismatch")
  else call (f_aero_mode_set_sampled sample_diams sample_num_conc len).

Definition set_type (self : t) (mode_type : string) : M S unit :=
  let '(found, type) := set_type_loop types mode_type false CInt.zero in
  if negb found then raise (invalid_argument "Invalid mode type.")
  else call (f_aero_mode_set_type type).

(** [types()[type - 1]]: unchecked indexing, guarded by the test
    before it. *)
Definition get_type (self : t) : M S string :=
  call f_aero_mode_get_type ;;;
  let* type := observe out_type in
  if (int_val type <=? 0)
     || (Z.of_nat (length types) <? CInt.to_unsigned (int_val type)) then
    raise (logic_error "Unknown mode type.")
  else ret (default "" (types !! Z.to_nat (int_val type - 1))).

Definition get_sample_radius (self : t) : M S (list float) :=
  call f_aero_mode_get_sample_bins ;;;
  let* len := observe out_sample_bins in
  let len := CInt.succ len in
  let* sample_radius := lift (valarray len) in
  call (f_aero_mode_get_sample_radius len) ;;;
  let* written := observe (fun s => out_sample_radius s len) in
  ret (fill sample_radius written).

Definition get_sample_num_conc (self : t) : M S (list float) :=
  call f_aero_mode_get_sample_bins ;;;
  let* len := observe out_sample_bins in
  let* sample_num_conc := lift (valarray len) in
  call (f_aero_mode_get_sample_num_conc len) ;;;
  let* written := observe (fun s => out_sample_num_conc s len) in
  ret (fill sample_num_conc written).

End Wrapper.

End AeroMode.

(** ** A stub foreign layer

    A small engine that stores what the setters pass in and hands it back
    from the getters; it accepts every document. *)

Module Stub.

Record state : Type := State {
  num_conc : float;
  char_radius : float;
  gsd : float;
  type : int;
  n_spec : int;
  vol_frac : list float;
  vol_frac_std : list float;
  sample_radius : list float;
  sample_num_conc : list float
}.

Definition transition (s : state) (c : fcall) : state :=
  let '(State nc cr g ty ns vf vfs sr snc) := s in
  match c with
  | f_aero_mode_set_num_conc val => State val cr g ty ns vf vfs sr snc
  | f_aero_mode_set_char_radius val => State nc val g ty ns vf vfs sr snc
  | f_aero_mode_set_gsd val => State nc cr val ty ns vf vfs sr snc
  | f_aero_mode_set_type val => State nc cr g val ns vf vfs sr snc
  | f_aero_mode_set_vol_frac arr _ => State nc cr g ty ns arr vfs sr snc
  | f_aero_mode_set_vol_frac_std arr _ => State nc cr g ty ns vf arr sr snc
  | f_aero_mode_set_sampled rad conc _ => State nc cr g ty ns vf vfs rad conc
  | _ => s
  end.

#[global] Instance engine : Engine state := {|
  step := transition;
  out_num_conc := num_conc;
  out_char_radius := char_radius;
  out_gsd := gsd;
  out_n_spec := n_spec;
  out_type := type;
  out_sample_bins := fun s => CInt.of_Z (Z.of_nat (length (sample_num_conc s)));
  out_vol_frac := fun s _ i => vol_frac s !! i;
  out_vol_frac_std := fun s _ i => vol_frac_std s !! i;
  out_sample_radius := fun s _ i => sample_radius s !! i;
  out_sample_num_conc := fun s _ i => sample_num_conc s !! i;
  check_parameters := fun _ _ => ok tt
|}.

(** A freshly started engine with three species, and the empty log. *)
Definition init : state :=
  State 0 0 0 CInt.zero (CInt.of_Z 3) [] [] [] [].

Definition world0 : world state := World init [].

End Stub.

(** ** Concrete inputs used below *)

(** The handle of an [AeroMode] that is alive. *)
Definition live_mode : AeroMode.t :=
  {| AeroMode.ptr := PMCResource.Handle f_aero_mode_ctor f_aero_mode_dtor false |}.

(** An engine that reports the code 5, which the binding does not know. *)
Definition skewed_world : world Stub.state :=
  World (Stub.State 0 0 0 (CInt.of_Z 5) (CInt.of_Z 3) [] [] [] []) [].

(** An engine holding a sampled distribution of two bins. *)
Definition sampled_world : world Stub.state :=
  World (Stub.State 0 0 0 (CInt.of_Z 4) (CInt.of_Z 3) [] []
           [1; 2; 3]%float [10; 20]%float) [].

(** The mass_frac list names a species twice: two entries of the list,
    at different positions, are mappings with a common key. *)
Definition duplicate_keys (l : list json) : Prop :=
  ∃ (i j : nat) (mi mj : gmap string json) (k : string),
    i ≠ j ∧ l !! i = Some (JObject mi) ∧ l !! j = Some (JObject mj)
    ∧ is_Some (mi !! k) ∧ is_Some (mj !! k).

(** The shape the size_dist entry of a sampled mode must have: a sequence
    of two single-key mappings, keyed diam and num_conc, with one more
    diameter than number concentrations (sizes as [size()] counts
    them). *)
Definition sampled_size_dist_ok (mode : gmap string json) : Prop :=
  ∃ diam num_conc : json,
    mode !! "size_dist"
    = Some (JArray [JObject {[ "diam" := diam ]}; JObject {[ "num_conc" := num_conc ]}])
    ∧ Json.size diam = (Json.size num_conc + 1)%nat.

Definition species (name : string) (fraction : Z) : json :=
  JObject {[ name := JInt fraction ]}.

(** A mode document in the wire shape of the specification. *)
Definition mode_params (mass_frac : list json) (mode_type : string)
    (more : gmap string json) : gmap string json :=
  <[ "mass_frac" := JArray mass_frac ]> (<[ "mode_type" := JString mode_type ]> more).

Definition mode_doc (mass_frac : list json) (mode_type : string)
    (more : gmap string json) : json :=
  JObject {[ "mode_a" := JObject (mode_params mass_frac mode_type more) ]}.

Definition size_dist (diam num_conc : list Z) : gmap string json :=
  {[ "size_dist" := JArray [JObject {[ "diam" := JArray (JInt <$> diam) ]};
                           JObject {[ "num_conc" := JArray (JInt <$> num_conc) ]}] ]}.

Definition aero_data0 : AeroData.t := {| AeroData.ptr := 1%N |}.

(** What the constructor raises on a document of the wrong outer shape. *)
Definition single_element_error : exn :=
  runtime_error "Single-element dict expected with mode name as key and mode params dict as value".

Definition missing_key_error (key : string) : exn :=
  runtime_error ("mode parameters dict must include key '" +:+ key +:+ "'").

(** The world a construction rejected by validation leaves: the handle
    was acquired in the member initialiser and destroyed while
    unwinding. *)
Definition rejected {S : Type} `{!Engine S} (w : world S) : world S :=
  after f_aero_mode_dtor (after f_aero_mode_ctor w).

(** ** Lifetime of a handle *)

Definition is_dtor (c : fcall) : bool :=
  match c with f_aero_mode_dtor => true | _ => false end.

(** How often the foreign destructor of the mode was invoked. *)
Fixpoint dtor_calls (tr : list fcall) : nat :=
  match tr with
  | [] => 0%nat
  | c :: tr' => ((if is_dtor c then 1 else 0) + dtor_calls tr')%nat
  end.

Section Lifetime.
Context {S : Type} `{!Engine S}.

(** [n] explicit releases of a handle, one after the other. *)
Fixpoint releases (n : nat) (h : PMCResource.t) : M S PMCResource.t :=
  match n with
  | O => ret h
  | Datatypes.S n' => let* h' := PMCResource.release h in releases n' h'
  end.

(** The rest of a handle's life: any number of explicit releases, then
    the teardown at the end of its lifetime. *)
Definition lifetime (n : nat) (h : PMCResource.t) : M S unit :=
  let* h' := releases n h in PMCResource.teardown h'.

End Lifetime.

(** ** Assumptions on the foreign side

    The round-trip properties hold for an engine that stores what a
    setter passes in and reports it unchanged from the matching getter. *)

Section EngineAssumptions.
Context (S : Type) `{!Engine S}.

Definition stores_scalars : Prop :=
  (∀ s x, out_num_conc
            (step (step s (f_aero_mode_set_num_conc x)) f_aero_mode_get_num_conc) = x)
  ∧ (∀ s x, out_char_radius
              (step (step s (f_aero_mode_set_char_radius x)) f_aero_mode_get_char_radius) = x)
  ∧ (∀ s x, out_gsd
              (step (step s (f_aero_mode_set_gsd x)) f_aero_mode_get_gsd) = x).

Definition stores_type : Prop :=
  ∀ s c, out_type (step (step s (f_aero_mode_set_type c)) f_aero_mode_get_type) = c.

End EngineAssumptions.


(** ** Further assumptions on the foreign side *)

Section EngineAssumptionsArrays.
Context (S : Type) `{!Engine S}.

(** The engine keeps the volume fractions (and their standard
    deviations) it is given, element by element, and neither the setter
    nor the species query changes the species count. *)
Definition stores_vol_frac : Prop :=
  (∀ s, out_n_spec (step s f_aero_mode_get_n_spec) = out_n_spec s)
  ∧ (∀ s data len,
       out_n_spec (step s (f_aero_mode_set_vol_frac data len)) = out_n_spec s
       ∧ out_n_spec (step s (f_aero_mode_set_vol_frac_std data len)) = out_n_spec s)
  ∧ (∀ s data len i,
       out_vol_frac
         (step (step (step s (f_aero_mode_set_vol_frac data len)) f_aero_mode_get_n_spec)
               (f_aero_mode_get_vol_frac len)) len i = data !! i)
  ∧ (∀ s data len i,
       out_vol_frac_std
         (step (step (step s (f_aero_mode_set_vol_frac_std data len)) f_aero_mode_get_n_spec)
               (f_aero_mode_get_vol_frac_std len)) len i = data !! i).

End EngineAssumptionsArrays.

(** The documents the constructor hands to the engine: a single-entry
    mapping whose value is a mapping that [check_mode_json] accepts. *)
Definition valid_mode_doc (doc : json) : Prop :=
  ∃ (name : string) (mode : gmap string json),
    doc = JObject {[ name := JObject mode ]}
    ∧ AeroMode.check_mode_json (JObject mode) = ok tt.

Definition size_dist_shape_error : exn :=
  runtime_error "size_dist value must be an iterable of two single-element dicts (first with 'diam', second with 'num_conc' as keys)".

Definition size_dist_length_error : exn :=
  runtime_error "size_dist['num_conc'] must have len(size_dist['diam'])-1 elements".

(** An engine with no species. *)
Definition no_species_world : world Stub.state :=
  World (Stub.State 0 0 0 CInt.zero CInt.zero [] [] [] []) [].

(** An engine holding three volume fractions, the last one unset. *)
Definition vol_frac_world : world Stub.state :=
  World (Stub.State 0 0 0 CInt.zero (CInt.of_Z 3) [0.5; 0.25]%float [] [] []) [].

(** A sampled mode whose size_dist is one mapping with both keys. *)
Definition side_by_side_mode : gmap string json :=
  mode_params [species "SO4" 1] "sampled"
    {[ "size_dist" :=
         JObject (<[ "diam" := JArray [JInt 1; JInt 2; JInt 3] ]>
                  {[ "num_conc" := JArray [JInt 10; JInt 20] ]}) ]}.

(** ** The name accessors and the binned distribution

    [set_name], [get_name] and [num_dist] go through entry points of
    their own and one more exception class; they are embedded here, with
    a log of these calls next to the foreign object. *)

Module BinGrid.
(** Modelled from the spec: a sibling wrapper the mode borrows (bin_grid.hpp
    is not among the sources), here its raw pointer. *)
Record t : Type := { ptr : N }.
End BinGrid.

Module Accessors.

Inductive xcall : Type :=
  | f_aero_mode_set_name (name_data : string) (name_size : int)
  | f_aero_mode_get_name
  | f_bin_grid_size (bin_grid_ptr : N)
  | f_aero_mode_num_conc (bin_grid_ptr aero_data_ptr : N) (arr_size : int).

(** What these functions can throw: the exceptions met so far, and
    [std::length_error] from [std::string::resize]. *)
Inductive failure : Type :=
  | std (e : exn)
  | length_error.

Inductive outcome (A : Type) : Type :=
  | returns (a : A)
  | throws (f : failure).
Arguments returns {A} a.
Arguments throws {A} f.

(** The Fortran side of these entry points.  [out_name_data] is the
    memory behind the pointer that [f_aero_mode_get_name] stores into its
    first output parameter, byte by byte; [out_name_size] the size it
    reports; [out_num_conc] what [f_aero_mode_num_conc] writes at each
    index of the buffer it is given. *)
Class XEngine (S : Type) : Type := {
  xstep : S → xcall → S;
  out_name_data : S → nat → Ascii.ascii;
  out_name_size : S → int;
  out_bin_grid_size : S → int;
  out_num_conc : S → int → nat → option float
}.

Record xworld (S : Type) : Type := XWorld { engine : S; calls : list xcall }.
Arguments XWorld {S} _ _.
Arguments engine {S} _.
Arguments calls {S} _.

Definition X (S A : Type) : Type := xworld S → outcome A * xworld S.

Section Monad.
Context {S : Type} `{!XEngine S}.

Definition xret {A} (a : A) : X S A := fun w => (returns a, w).

Definition xbind {A B} (m : X S A) (k : A → X S B) : X S B :=
  fun w => match m w with
           | (returns a, w') => k a w'
           | (throws f, w') => (throws f, w')
           end.

Definition xlift {A} (r : outcome A) : X S A := fun w => (r, w).

Definition xafter (c : xcall) (w : xworld S) : xworld S :=
  XWorld (xstep (engine w) c) (calls w ++ [c]).

Definition xcall_ (c : xcall) : X S unit := fun w => (returns tt, xafter c w).

Definition xobserve {A} (f : S → A) : X S A := fun w => (returns (f (engine w)), w).

End Monad.

Notation "'let+' x ':=' e1 'in' e2" := (xbind e1 (fun x => e2))
  (at level 10, x name, e1 at level 100, e2 at level 200, only parsing).

(** An exception of the earlier kind, passed on. *)
Definition of_result {A} (r : result A) : outcome A :=
  match r with ok a => returns a | throw e => throws (std e) end.

(** [name.resize(size)] on the empty string, [size] an [int]: the count
    is converted to [size_t], so a negative one exceeds [max_size()];
    otherwise [size] NUL characters. *)
Definition resize (size : int) : outcome (list Ascii.ascii) :=
  if int_val size <? 0 then throws length_error
  else returns (replicate (Z.to_nat (int_val size)) Ascii.zero).

(** [for (int i = 0; i < size; ++i) name[i] = f_ptr[i];] with [todo]
    iterations left. *)
Fixpoint copy_chars (f_ptr : nat → Ascii.ascii) (i todo : nat)
    (name : list Ascii.ascii) : list Ascii.ascii :=
  match todo with
  | O => name
  | Datatypes.S todo' => copy_chars f_ptr (Datatypes.S i) todo' (<[ i := f_ptr i ]> name)
  end.

Section Wrapper.
Context {S : Type} `{!XEngine S}.

Definition set_name (self : AeroMode.t) (name : string) : X S unit :=
  let size := CInt.of_Z (Z.of_nat (String.length name)) in
  xcall_ (f_aero_mode_set_name name size).

Definition get_name (self : AeroMode.t) : X S string :=
  let+ _ := xcall_ f_aero_mode_get_name in
  let+ f_ptr := xobserve out_name_data in
  let+ size := xobserve out_name_size in
  let+ name := xlift (resize size) in
  xret (String.string_of_list_ascii (copy_chars f_ptr 0 (Z.to_nat (int_val size)) name)).

Definition num_dist (self : AeroMode.t) (bin_grid : BinGrid.t) (aero_data : AeroData.t)
    : X S (list float) :=
  let+ _ := xcall_ (f_bin_grid_size (BinGrid.ptr bin_grid)) in
  let+ len := xobserve out_bin_grid_size in
  let+ data := xlift (of_result (AeroMode.valarray len)) in
  let+ _ := xcall_ (f_aero_mode_num_conc (BinGrid.ptr bin_grid)
                      (AeroData.ptr aero_data) len) in
  let+ written := xobserve (fun s => out_num_conc s len) in
  xret (AeroMode.fill data written).

(** The engine keeps the name it is given: after [f_aero_mode_set_name],
    [f_aero_mode_get_name] reports the size it was passed and points at
    the bytes of the name. *)
Definition stores_name : Prop :=
  ∀ (s : S) (name : string) (size : int),
    let s' := xstep (xstep s (f_aero_mode_set_name name size)) f_aero_mode_get_name in
    out_name_size s' = size
    ∧ ∀ (i : nat) (c : Ascii.ascii),
        String.list_ascii_of_string name !! i = Some c → out_name_data s' i = c.

End Wrapper.

(** A stub for these entry points: it remembers the name and its size,
    and holds a bin grid with the distribution over it. *)
Record stub : Type := Stub {
  name_bytes : string;
  name_size : int;
  grid_size : int;
  dist : list float
}.

Definition stub_step (s : stub) (c : xcall) : stub :=
  match c with
  | f_aero_mode_set_name name size => Stub name size (grid_size s) (dist s)
  | _ => s
  end.

#[global] Instance stub_engine : XEngine stub := {|
  xstep := stub_step;
  out_name_data := fun s i => default Ascii.zero (String.list_ascii_of_string (name_bytes s) !! i);
  out_name_size := name_size;
  out_bin_grid_size := grid_size;
  out_num_conc := fun s _ i => dist s !! i
|}.

Definition stub0 : xworld stub :=
  XWorld (Stub "init" (CInt.of_Z 4) (CInt.of_Z 3) [100; 200]%float) [].

End Accessors.

(** * Properties *)

(** ** Facts about C [int] *)

Section CIntFacts.

Lemma wrap_in_range z : CInt.in_range (CInt.wrap z) = true.
Proof.
  unfold CInt.in_range, CInt.wrap, CInt.INT_MIN, CInt.INT_MAX.
  pose proof (Z.mod_pos_bound (z + 2147483648) 4294967296 eq_refl).
  apply andb_true_intro; split; apply Z.leb_le; lia.
Qed.

Lemma wrap_id z : CInt.INT_MIN ≤ z ≤ CInt.INT_MAX → CInt.wrap z = z.
Proof.
  unfold CInt.wrap, CInt.INT_MIN, CInt.INT_MAX. intros Hz.
  rewrite Z.mod_small; lia.
Qed.

Lemma int_val_of_Z z : int_val (CInt.of_Z z) = CInt.wrap z.
Proof.
  unfold CInt.of_Z.
  generalize (eq_refl (CInt.in_range (CInt.wrap z))).
  generalize (CInt.in_range (CInt.wrap z)) at 2 3.
  intros [] Hb; [reflexivity|].
  rewrite wrap_in_range in Hb. discriminate.
Qed.

Lemma int_val_bounds (x : int) : CInt.INT_MIN ≤ int_val x ≤ CInt.INT_MAX.
Proof.
  destruct x as [v Hv]; simpl.
  unfold CInt.in_range in Hv. apply andb_prop in Hv as [H1 H2].
  apply Z.leb_le in H1, H2. lia.
Qed.

Lemma int_val_of_Z_id z :
  CInt.INT_MIN ≤ z ≤ CInt.INT_MAX → int_val (CInt.of_Z z) = z.
Proof. intros Hz. rewrite int_val_of_Z. by apply wrap_id. Qed.

Lemma int_val_inj (x y : int) : int_val x = int_val y → x = y.
Proof.
  destruct x as [v Hv], y as [v' Hv']; simpl. intros ->.
  f_equal. apply (proof_irrel (A:=CInt.in_range v' = true)).
Qed.

Lemma int_eqb_eq (x y : int) : CInt.eqb x y = true ↔ int_val x = int_val y.
Proof. unfold CInt.eqb. apply Z.eqb_eq. Qed.

Lemma int_val_succ (x : int) :
  int_val x < CInt.INT_MAX → int_val (CInt.succ x) = int_val x + 1.
Proof.
  intros Hx. unfold CInt.succ. apply int_val_of_Z_id.
  pose proof (int_val_bounds x). lia.
Qed.

End CIntFacts.

(** ** The stub engine stores what it is given *)

Lemma stub_stores_scalars : stores_scalars Stub.state.
Proof. repeat split; intros [] x; reflexivity. Qed.

Lemma stub_stores_type : stores_type Stub.state.
Proof. intros [] c; reflexivity. Qed.

(** ** Scalar attributes *)

Section Scalars.
Context {S : Type} `{!Engine S}.
Implicit Types (self : AeroMode.t) (w : world S) (x : float).

(** C9: for num_conc, char_radius and gsd, calling the setter with [x]
    and then the getter returns exactly [x], for an engine that stores
    the value and returns it unchanged. *)
Theorem scalar_set_get_roundtrip self x w :
  stores_scalars S →
  fst ((AeroMode.set_num_conc self x ;;; AeroMode.get_num_conc self) w) = ok x
  ∧ fst ((AeroMode.set_char_radius self x ;;; AeroMode.get_char_radius self) w) = ok x
  ∧ fst ((AeroMode.set_gsd self x ;;; AeroMode.get_gsd self) w) = ok x.
Proof.
  intros (Hnc & Hcr & Hgsd).
  unfold AeroMode.set_num_conc, AeroMode.get_num_conc,
    AeroMode.set_char_radius, AeroMode.get_char_radius,
    AeroMode.set_gsd, AeroMode.get_gsd, bind, call, observe, after; simpl.
  by rewrite Hnc, Hcr, Hgsd.
Qed.

End Scalars.

(** The example of the specification: a characteristic radius of 2.5e-6
    (the nearest double, written exactly) survives the round trip. *)
Lemma scalar_set_get_roundtrip_witness :
  fst ((AeroMode.set_char_radius live_mode 0x1.4f8b588e368f1p-19
        ;;; AeroMode.get_char_radius live_mode) Stub.world0)
  = ok 0x1.4f8b588e368f1p-19%float.
Proof.
  exact (proj1 (proj2 (scalar_set_get_roundtrip live_mode
                         0x1.4f8b588e368f1p-19 Stub.world0 stub_stores_scalars))).
Defined.

(** ** The type discriminator *)

Section TypeDiscriminator.
Context {S : Type} `{!Engine S}.
Implicit Types (self : AeroMode.t) (w : world S) (name : string).

Lemma set_type_loop_known name :
  name ∈ AeroMode.types →
  ∃ c, AeroMode.set_type_loop AeroMode.types name false CInt.zero = (true, c)
       ∧ AeroMode.types !! Z.to_nat (int_val c - 1) = Some name
       ∧ 1 ≤ int_val c ≤ 4.
Proof.
  unfold AeroMode.types. rewrite !elem_of_cons, elem_of_nil.
  intros [-> | [-> | [-> | [-> | []]]]]; eexists; vm_compute; (split; [reflexivity|]);
    (split; [reflexivity|]); split; discriminate.
Qed.

Lemma set_type_loop_unknown name :
  name ∉ AeroMode.types →
  fst (AeroMode.set_type_loop AeroMode.types name false CInt.zero) = false.
Proof.
  unfold AeroMode.types. rewrite !not_elem_of_cons. intros (H1 & H2 & H3 & H4 & _).
  simpl. rewrite !bool_decide_eq_false_2 by done. reflexivity.
Qed.

(** What [set_type] does on a known name: one boundary call, passing
    the one-based position of the name in [types]. *)
Lemma set_type_known self name w :
  name ∈ AeroMode.types →
  ∃ c, AeroMode.types !! Z.to_nat (int_val c - 1) = Some name
       ∧ 1 ≤ int_val c ≤ 4
       ∧ AeroMode.set_type self name w
         = (ok tt, after (f_aero_mode_set_type c) w).
Proof.
  intros Hin. destruct (set_type_loop_known name Hin) as (c & Hloop & Hidx & Hc).
  exists c. split; [done|]. split; [done|].
  unfold AeroMode.set_type. rewrite Hloop. reflexivity.
Qed.

Lemma set_type_unknown self name w :
  name ∉ AeroMode.types →
  AeroMode.set_type self name w = (throw (invalid_argument "Invalid mode type."), w).
Proof.
  intros Hnin. pose proof (set_type_loop_unknown name Hnin) as Hloop.
  unfold AeroMode.set_type.
  destruct (AeroMode.set_type_loop _ _ _ _) as [found c]. simpl in Hloop. subst found.
  reflexivity.
Qed.

(** The decision [get_type] takes on the code the engine reports. *)
Lemma get_type_spec self w :
  let code := int_val (out_type (step (foreign w) f_aero_mode_get_type)) in
  fst (AeroMode.get_type self w)
  = if bool_decide (1 ≤ code ≤ 4)
    then ok (default "" (AeroMode.types !! Z.to_nat (code - 1)))
    else throw (logic_error "Unknown mode type.").
Proof.
  intros code. unfold AeroMode.get_type, bind, call, observe, after; simpl.
  fold code.
  pose proof (int_val_bounds (out_type (step (foreign w) f_aero_mode_get_type))) as Hb.
  fold code in Hb. unfold CInt.INT_MIN, CInt.INT_MAX in Hb.
  destruct (Z.leb_spec code 0) as [Hle|Hgt]; simpl.
  - rewrite bool_decide_eq_false_2 by lia. reflexivity.
  - unfold CInt.to_unsigned. rewrite Z.mod_small by lia.
    change (Z.of_nat 4) with 4.
    destruct (Z.ltb_spec 4 code) as [Hbig|Hsmall]; simpl.
    + rewrite bool_decide_eq_false_2 by lia. reflexivity.
    + rewrite bool_decide_eq_true_2 by lia. reflexivity.
Qed.

(** C4: for every name of the known variant set, [set_type] with that
    name followed by [get_type] returns the same name, for an engine
    that stores the code and returns it unchanged; [set_type] with any
    other name raises an error. *)
Theorem set_get_type_roundtrip self name w :
  stores_type S →
  (name ∈ AeroMode.types →
     fst ((AeroMode.set_type self name ;;; AeroMode.get_type self) w) = ok name)
  ∧ (name ∉ AeroMode.types →
     ∃ e, fst (AeroMode.set_type self name w) = throw e).
Proof.
  intros Hstore. split.
  - intros Hin. destruct (set_type_known self name w Hin) as (c & Hidx & Hc & Hset).
    unfold bind at 1. rewrite Hset.
    rewrite get_type_spec. simpl. rewrite Hstore.
    rewrite bool_decide_eq_true_2 by done. by rewrite Hidx.
  - intros Hnin. rewrite set_type_unknown by done. by eexists.
Qed.

(** C5: the two directions fail differently.  [set_type] with a name
    outside the known set raises [std::invalid_argument] and makes no
    boundary call; [get_type] raises [std::logic_error] when the code
    the engine reports is outside 1..4, and returns the name at that
    position of [types] exactly when the code is in 1..4. *)
Theorem unknown_variant_errors self w :
  let code := int_val (out_type (step (foreign w) f_aero_mode_get_type)) in
  (∀ name, name ∉ AeroMode.types →
     AeroMode.set_type self name w = (throw (invalid_argument "Invalid mode type."), w))
  ∧ (¬ (1 ≤ code ≤ 4) →
     fst (AeroMode.get_type self w) = throw (logic_error "Unknown mode type."))
  ∧ (1 ≤ code ≤ 4 →
     ∃ name, AeroMode.types !! Z.to_nat (code - 1) = Some name
             ∧ fst (AeroMode.get_type self w) = ok name)
  ∧ (is_ok (fst (AeroMode.get_type self w)) = true ↔ 1 ≤ code ≤ 4)
  ∧ (∀ m m', invalid_argument m ≠ logic_error m').
Proof.
  intros code. pose proof (get_type_spec self w) as Hget. simpl in Hget. fold code in Hget.
  split; [intros name Hnin; by apply set_type_unknown|].
  split; [intros Hout; by rewrite Hget, bool_decide_eq_false_2|].
  split.
  { intros Hin. rewrite Hget, bool_decide_eq_true_2 by done.
    destruct (AeroMode.types !! Z.to_nat (code - 1)) as [name|] eqn:Hidx.
    - by exists name.
    - apply lookup_ge_None in Hidx. simpl in Hidx. lia. }
  split; [|discriminate].
  rewrite Hget. case_bool_decide; simpl; split; done.
Qed.

End TypeDiscriminator.

Lemma set_get_type_roundtrip_witness :
  fst ((AeroMode.set_type live_mode "mono" ;;; AeroMode.get_type live_mode) Stub.world0)
  = ok "mono"
  ∧ ∃ e, fst (AeroMode.set_type live_mode "bogus" Stub.world0) = throw e.
Proof.
  destruct (set_get_type_roundtrip live_mode "mono" Stub.world0 stub_stores_type) as [Hk _].
  destruct (set_get_type_roundtrip live_mode "bogus" Stub.world0 stub_stores_type) as [_ Hu].
  split.
  - apply Hk. apply (bool_decide_unpack _). reflexivity.
  - apply Hu. apply (bool_decide_unpack _). reflexivity.
Defined.

Lemma unknown_variant_errors_witness :
  AeroMode.set_type live_mode "bogus" skewed_world
  = (throw (invalid_argument "Invalid mode type."), skewed_world)
  ∧ fst (AeroMode.get_type live_mode skewed_world) = throw (logic_error "Unknown mode type.")
  ∧ ∃ name, AeroMode.types !! 2%nat = Some name
            ∧ fst (AeroMode.get_type live_mode
                     (World (Stub.State 0 0 0 (CInt.of_Z 3) (CInt.of_Z 3) [] [] [] []) []))
              = ok name.
Proof.
  destruct (unknown_variant_errors live_mode skewed_world) as (Hset & Hget & _).
  destruct (unknown_variant_errors live_mode
              (World (Stub.State 0 0 0 (CInt.of_Z 3) (CInt.of_Z 3) [] [] [] []) []))
    as (_ & _ & Hin & _).
  split; [apply Hset; apply (bool_decide_unpack _); reflexivity|].
  split; [apply Hget; vm_compute; intros [_ H]; apply H; reflexivity|].
  apply Hin. vm_compute. split; discriminate.
Defined.

(** ** Array setters and the size-then-fill getters *)

Section Arrays.
Context {S : Type} `{!Engine S}.
Implicit Types (self : AeroMode.t) (w : world S) (data : list float).

Lemma length_as_int data :
  Z.of_nat (length data) ≤ CInt.INT_MAX →
  int_val (CInt.of_Z (Z.of_nat (length data))) = Z.of_nat (length data).
Proof. intros Hlen. apply int_val_of_Z_id. unfold CInt.INT_MIN. lia. Qed.

(** C3: when the length of the array given to [set_vol_frac] or
    [set_vol_frac_std] (a length that fits a C [int]) differs from the
    species count reported by the n_spec query, the wrapper raises the
    size-mismatch error and the only boundary call made is that query;
    when they agree, the foreign setter is called with the array and
    exactly its length. *)
Theorem set_vol_frac_dimension_check self data w :
  Z.of_nat (length data) ≤ CInt.INT_MAX →
  let w1 := after f_aero_mode_get_n_spec w in
  let n_spec := int_val (out_n_spec (foreign w1)) in
  (Z.of_nat (length data) ≠ n_spec →
     AeroMode.set_vol_frac self data w
     = (throw (runtime_error "AeroData size mismatch"), w1)
     ∧ AeroMode.set_vol_frac_std self data w
       = (throw (runtime_error "AeroData size mismatch"), w1))
  ∧ (Z.of_nat (length data) = n_spec →
     ∃ len, int_val len = Z.of_nat (length data)
       ∧ AeroMode.set_vol_frac self data w
         = (ok tt, after (f_aero_mode_set_vol_frac data len) w1)
       ∧ AeroMode.set_vol_frac_std self data w
         = (ok tt, after (f_aero_mode_set_vol_frac_std data len) w1)).
Proof.
  intros Hlen w1 n_spec. pose proof (length_as_int data Hlen) as Hint.
  unfold AeroMode.set_vol_frac, AeroMode.set_vol_frac_std, bind, call, observe.
  fold w1. unfold CInt.eqb. rewrite Hint. fold n_spec. split.
  - intros Hne. apply Z.eqb_neq in Hne. rewrite Hne. simpl. done.
  - intros Heq. exists (CInt.of_Z (Z.of_nat (length data))).
    apply Z.eqb_eq in Heq. rewrite Heq. simpl. done.
Qed.

(** [set_sampled] wants one more diameter than number concentrations. *)
Lemma set_sampled_mismatch self (sample_diams sample_num_conc : list float) w :
  Z.of_nat (length sample_diams) ≤ CInt.INT_MAX →
  Z.of_nat (length sample_num_conc) ≤ CInt.INT_MAX →
  length sample_diams ≠ (length sample_num_conc + 1)%nat →
  AeroMode.set_sampled self sample_diams sample_num_conc w
  = (throw (runtime_error "Diameter and number size mismatch"), w).
Proof.
  intros Hd Hn Hne. unfold AeroMode.set_sampled, CInt.eqb, CInt.succ.
  rewrite !int_val_of_Z.
  rewrite (wrap_id (Z.of_nat (length sample_num_conc))) by (unfold CInt.INT_MIN; lia).
  rewrite (wrap_id (Z.of_nat (length sample_diams))) by (unfold CInt.INT_MIN; lia).
  assert (Z.of_nat (length sample_diams)
          ≠ CInt.wrap (Z.of_nat (length sample_num_conc) + 1)) as Hne'.
  { destruct (decide (Z.of_nat (length sample_num_conc) = CInt.INT_MAX)) as [Hmax|Hmax].
    - rewrite Hmax. vm_compute (CInt.wrap _). lia.
    - rewrite wrap_id by (unfold CInt.INT_MIN; lia). lia. }
  apply Z.eqb_neq in Hne'. rewrite Hne'. reflexivity.
Qed.

Lemma set_sampled_match self (sample_diams sample_num_conc : list float) w :
  Z.of_nat (length sample_diams) ≤ CInt.INT_MAX →
  length sample_diams = (length sample_num_conc + 1)%nat →
  ∃ len, int_val len = Z.of_nat (length sample_diams)
    ∧ AeroMode.set_sampled self sample_diams sample_num_conc w
      = (ok tt, after (f_aero_mode_set_sampled sample_diams sample_num_conc len) w).
Proof.
  intros Hd Heq. exists (CInt.of_Z (Z.of_nat (length sample_diams))).
  split; [by apply length_as_int|].
  unfold AeroMode.set_sampled, CInt.eqb, CInt.succ.
  rewrite !int_val_of_Z.
  rewrite (wrap_id (Z.of_nat (length sample_num_conc))) by (unfold CInt.INT_MIN; lia).
  rewrite !wrap_id by (unfold CInt.INT_MIN; lia).
  replace (Z.of_nat (length sample_diams) =? Z.of_nat (length sample_num_conc) + 1)
    with true by (symmetry; apply Z.eqb_eq; lia).
  reflexivity.
Qed.

Lemma valarray_length (len : int) :
  0 ≤ int_val len →
  ∃ buf, AeroMode.valarray len = ok buf ∧ length buf = Z.to_nat (int_val len).
Proof.
  intros Hlen. unfold AeroMode.valarray.
  destruct (Z.ltb_spec (int_val len) 0); [lia|].
  eexists; split; [reflexivity|]. apply length_replicate.
Qed.

Lemma fill_length buf written : length (AeroMode.fill buf written) = length buf.
Proof. apply length_imap. Qed.

(** C10: when the sample-bins query reports [n] (a count, below
    INT_MAX), [get_sample_num_conc] returns [n] elements and
    [get_sample_radius] returns [n + 1]: the wrapper increments the
    queried size before it allocates the radius buffer and passes the
    incremented size to the fill call. *)
Theorem sample_radius_one_more_than_num_conc self w :
  let n := int_val (out_sample_bins (foreign (after f_aero_mode_get_sample_bins w))) in
  0 ≤ n < CInt.INT_MAX →
  ∃ (sample_radius sample_num_conc : list float) (len : int),
    fst (AeroMode.get_sample_num_conc self w) = ok sample_num_conc
    ∧ fst (AeroMode.get_sample_radius self w) = ok sample_radius
    ∧ length sample_num_conc = Z.to_nat n
    ∧ length sample_radius = (length sample_num_conc + 1)%nat
    ∧ int_val len = n + 1
    ∧ trace (snd (AeroMode.get_sample_radius self w))
      = trace w ++ [f_aero_mode_get_sample_bins; f_aero_mode_get_sample_radius len].
Proof.
  intros n Hn.
  set (bins := out_sample_bins (foreign (after f_aero_mode_get_sample_bins w))) in *.
  assert (int_val (CInt.succ bins) = n + 1) as Hsucc
    by (apply int_val_succ; subst n; lia).
  destruct (valarray_length bins) as (buf & Hbuf & Hbuflen); [subst n; lia|].
  destruct (valarray_length (CInt.succ bins)) as (rbuf & Hrbuf & Hrbuflen); [lia|].
  eexists _, _, (CInt.succ bins).
  unfold AeroMode.get_sample_num_conc, AeroMode.get_sample_radius,
    bind, call, observe, lift, ret.
  fold bins. rewrite Hbuf, Hrbuf. simpl.
  split; [reflexivity|]. split; [reflexivity|].
  rewrite !fill_length, Hbuflen, Hrbuflen, Hsucc.
  split; [done|]. split; [subst n; lia|]. split; [done|].
  by rewrite <- app_assoc.
Qed.

End Arrays.

Lemma set_vol_frac_dimension_check_witness :
  AeroMode.set_vol_frac live_mode [1; 2]%float Stub.world0
  = (throw (runtime_error "AeroData size mismatch"),
     after f_aero_mode_get_n_spec Stub.world0)
  ∧ ∃ len, int_val len = 3
      ∧ AeroMode.set_vol_frac live_mode [1; 2; 3]%float Stub.world0
        = (ok tt, after (f_aero_mode_set_vol_frac [1; 2; 3]%float len)
                    (after f_aero_mode_get_n_spec Stub.world0)).
Proof.
  split.
  - apply (set_vol_frac_dimension_check live_mode [1; 2]%float Stub.world0);
      vm_compute; discriminate.
  - destruct (proj2 (set_vol_frac_dimension_check live_mode [1; 2; 3]%float Stub.world0
                       ltac:(vm_compute; discriminate)) eq_refl)
      as (len & Hlen & Hset & _).
    exists len. split; [exact Hlen | exact Hset].
Defined.

Lemma sample_radius_one_more_than_num_conc_witness :
  ∃ (sample_radius sample_num_conc : list float),
    fst (AeroMode.get_sample_num_conc live_mode sampled_world) = ok sample_num_conc
    ∧ fst (AeroMode.get_sample_radius live_mode sampled_world) = ok sample_radius
    ∧ length sample_num_conc = 2%nat
    ∧ length sample_radius = 3%nat.
Proof.
  destruct (sample_radius_one_more_than_num_conc live_mode sampled_world)
    as (r & c & len & Hc & Hr & Hlc & Hlr & _).
  { vm_compute. split; [discriminate | reflexivity]. }
  exists r, c. rewrite Hlr, Hlc. repeat split; assumption.
Defined.

(** ** Validation of the mode document *)

Section Maps.

Lemma map_size_1_lookup (m : gmap string json) k v :
  size m = 1%nat → m !! k = Some v → m = {[ k := v ]}.
Proof.
  intros Hsize Hk.
  rewrite <- (insert_delete_id m k v Hk).
  assert (delete k m = ∅) as ->; [|apply insert_empty].
  apply map_size_empty_iff. rewrite map_size_delete_Some by eauto. lia.
Qed.

Lemma map_size_1_singleton (m : gmap string json) :
  size m = 1%nat → ∃ k v, m = {[ k := v ]}.
Proof.
  intros Hsize.
  destruct (map_size_ne_0_lookup_1 m) as (k & [v Hk]); [lia|].
  exists k, v. by apply map_size_1_lookup.
Qed.

Lemma keys_lookup (m : gmap string json) k :
  k ∈ Json.keys (JObject m) ↔ is_Some (m !! k).
Proof.
  simpl. rewrite list_elem_of_fmap. split.
  - intros ([k' v] & -> & Hin). apply elem_of_map_to_list in Hin. eauto.
  - intros [v Hv]. exists (k, v). split; [done|]. by apply elem_of_map_to_list.
Qed.

Lemma duplicate_keys_not_unique l :
  duplicate_keys l → InputJSONResource.unique_keys (JArray l) = false.
Proof.
  intros (i & j & mi & mj & k & Hij & Hi & Hj & Hki & Hkj).
  simpl. apply bool_decide_eq_false_2. intros Hnd.
  assert (∀ (i j : nat) mi mj, (i < j)%nat → l !! i = Some (JObject mi) →
            l !! j = Some (JObject mj) → is_Some (mi !! k) → is_Some (mj !! k) → False)
    as Hlt.
  { clear -Hnd. intros i j mi mj Hlt Hi Hj Hki Hkj.
    rewrite <- (take_drop_middle l i (JObject mi) Hi) in Hnd, Hj.
    rewrite fmap_app, concat_app, fmap_cons in Hnd. simpl in Hnd.
    apply NoDup_app in Hnd as (_ & _ & Hnd).
    apply NoDup_app in Hnd as (_ & Hdisj & _).
    apply (Hdisj k).
    - change ((map_to_list mi).*1) with (Json.keys (JObject mi)). by apply keys_lookup.
    - apply list_elem_of_In, in_concat. exists (Json.keys (JObject mj)).
      split; [|by apply list_elem_of_In, keys_lookup].
      apply list_elem_of_In, list_elem_of_fmap_2.
      assert (length (take i l) = i) as Hlen.
      { apply length_take_le. apply lookup_lt_Some in Hi. lia. }
      rewrite lookup_app_r in Hj by lia. rewrite Hlen in Hj.
      destruct (j - i)%nat as [|d] eqn:Hd; [lia|]. simpl in Hj.
      by apply list_elem_of_lookup_2 in Hj. }
  destruct (decide (i < j)%nat); [by eapply (Hlt i j)|].
  eapply (Hlt j i); eauto. lia.
Qed.

End Maps.

Section Validation.
Context {S : Type} `{!Engine S}.
Implicit Types (w : world S) (aero_data : AeroData.t) (mode : gmap string json).

Lemma AeroMode_ill_shaped aero_data doc w :
  (∀ name mode, doc ≠ JObject {[ name := JObject mode ]}) →
  AeroMode.AeroMode aero_data doc w = (throw single_element_error, rejected w).
Proof.
  intros Hshape.
  assert ((negb (Json.size doc =? 1)%nat ||?
           negb (Json.is_object doc) ||?
           (let? v := Json.begin_value doc in ok (negb (Json.is_object v))))
          = ok true) as Hbad.
  { destruct (Json.size doc =? 1)%nat eqn:Hsize; [|done].
    apply Nat.eqb_eq in Hsize.
    destruct doc as [| | | | | |m]; try done.
    simpl in Hsize. destruct (map_size_1_singleton m Hsize) as (k & v & ->).
    simpl. rewrite map_to_list_singleton. simpl.
    destruct v; try done. by destruct (Hshape k m). }
  unfold AeroMode.AeroMode, PMCResource.acquire, bind, call, ret, unwind, lift.
  rewrite Hbad. reflexivity.
Qed.

Lemma AeroMode_well_shaped aero_data name mode w :
  let doc := JObject {[ name := JObject mode ]} in
  let w1 := after f_aero_mode_ctor w in
  let w2 := after (f_aero_mode_from_json (AeroData.ptr aero_data) doc) w1 in
  AeroMode.AeroMode aero_data doc w
  = match AeroMode.check_mode_json (JObject mode) with
    | throw e => (throw e, rejected w)
    | ok _ =>
        match check_parameters (foreign w2) doc with
        | throw e => (throw e, after f_aero_mode_dtor w2)
        | ok _ => (ok live_mode, w2)
        end
    end.
Proof.
  intros doc w1 w2.
  unfold AeroMode.AeroMode, PMCResource.acquire, PMCResource.teardown,
    PMCResource.release, bind, call, ret, unwind, lift, observe, raise.
  subst doc. simpl. rewrite map_size_singleton, map_to_list_singleton. simpl.
  destruct (AeroMode.check_mode_json (JObject mode)) as [[]|e]; [|reflexivity].
  subst w1 w2. unfold after; simpl.
  destruct (check_parameters _ _) as [[]|e]; reflexivity.
Qed.

(** C7: the document has to be a single-entry mapping whose one value
    is a mapping.  A document that is not an object, or whose size is
    not 1, or whose single value is not an object, is rejected with the
    "Single-element dict expected" error; nothing but the constructor
    and destructor of the handle crosses the boundary. *)
Theorem construction_requires_single_entry_mapping aero_data doc w :
  Json.is_object doc = false
  ∨ Json.size doc ≠ 1%nat
  ∨ (∃ name v, doc = JObject {[ name := v ]} ∧ Json.is_object v = false) →
  AeroMode.AeroMode aero_data doc w = (throw single_element_error, rejected w).
Proof.
  intros Hbad. apply AeroMode_ill_shaped. intros name mode ->.
  destruct Hbad as [Hobj | [Hsize | (name' & v & Heq & Hv)]].
  - done.
  - simpl in Hsize. by rewrite map_size_singleton in Hsize.
  - assert (v = JObject mode) as ->; [|done].
    pose proof (f_equal (Json.find name) Heq) as Hl. cbv beta iota delta [Json.find] in Hl.
    rewrite lookup_singleton_eq in Hl. symmetry in Hl.
    by apply lookup_singleton_Some in Hl as [_ ->].
Qed.

Lemma check_required_keys_spec mode :
  AeroMode.check_required_keys AeroMode.required_keys (JObject mode)
  = match mode !! "mass_frac", mode !! "mode_type" with
    | None, _ => throw (missing_key_error "mass_frac")
    | Some _, None => throw (missing_key_error "mode_type")
    | Some _, Some _ => ok tt
    end.
Proof. simpl. by repeat case_match. Qed.

(** C6: when the inner mapping lacks a required key, construction
    raises the error whose message names a required key that is
    missing (the first one in key order when both are). *)
Theorem missing_required_key_rejected aero_data name mode key w :
  key ∈ AeroMode.required_keys →
  mode !! key = None →
  ∃ missing,
    missing ∈ AeroMode.required_keys
    ∧ mode !! missing = None
    ∧ ((∀ k, k ∈ AeroMode.required_keys → k ≠ key → is_Some (mode !! k)) →
       missing = key)
    ∧ AeroMode.AeroMode aero_data (JObject {[ name := JObject mode ]}) w
      = (throw (runtime_error
                  ("mode parameters dict must include key '" +:+ missing +:+ "'")),
         rejected w).
Proof.
  intros Hkey Hnone.
  assert (∃ missing, missing ∈ AeroMode.required_keys ∧ mode !! missing = None
            ∧ AeroMode.check_mode_json (JObject mode) = throw (missing_key_error missing))
    as (missing & Hreq & Hmiss & Hcheck).
  { unfold AeroMode.check_mode_json. rewrite check_required_keys_spec.
    unfold AeroMode.required_keys in *.
    destruct (mode !! "mass_frac") eqn:Hmf.
    - destruct (mode !! "mode_type") eqn:Hmt.
      + apply elem_of_cons in Hkey as [-> | Hkey]; [congruence|].
        apply list_elem_of_singleton in Hkey as ->. congruence.
      + exists "mode_type". split; [|done]. apply elem_of_cons. right. apply elem_of_cons. by left.
    - exists "mass_frac". split; [|done]. apply elem_of_cons. by left. }
  exists missing. split; [done|]. split; [done|]. split.
  - intros Hothers. destruct (decide (missing = key)) as [|Hne]; [done|].
    destruct (Hothers missing Hreq Hne) as [v Hv]. congruence.
  - rewrite AeroMode_well_shaped. simpl. by rewrite Hcheck.
Qed.

End Validation.

Section Sampled.
Context {S : Type} `{!Engine S}.
Implicit Types (w : world S) (aero_data : AeroData.t) (mode : gmap string json).

Lemma check_mode_json_sampled mode :
  mode !! "mode_type" = Some (JString "sampled") →
  AeroMode.check_mode_json (JObject mode) = ok tt →
  sampled_size_dist_ok mode.
Proof.
  intros Htype. unfold AeroMode.check_mode_json.
  rewrite check_required_keys_spec, Htype.
  destruct (mode !! "mass_frac") as [mf|] eqn:Hmf; [|done]. simpl.
  unfold Json.at_key, Json.find. rewrite Hmf, Htype. simpl.
  destruct (negb (Json.is_array mf)); [done|].
  destruct (negb (InputJSONResource.unique_keys mf)); [done|].
  destruct (mode !! "size_dist") as [sd|] eqn:Hsd; [|done]. simpl.
  destruct sd as [| | | | |l|m]; try done.
  - destruct l as [|a [|b [|c l]]]; try done. simpl.
    destruct a as [| | | | | |ma]; try done. simpl.
    destruct (size ma =? 1)%nat eqn:Hma; [|done]. simpl.
    destruct (Json.size b =? 1)%nat eqn:Hb; [|done]. simpl.
    destruct (ma !! "diam") as [diam|] eqn:Hdiam; [|done]. simpl.
    destruct b as [| | | | | |mb]; try done. simpl.
    destruct (mb !! "num_conc") as [num_conc|] eqn:Hnc; [|done]. simpl.
    destruct (Json.size diam =? Json.size num_conc + 1)%nat eqn:Hlen; [|done].
    intros _. exists diam, num_conc.
    apply Nat.eqb_eq in Hma, Hb, Hlen. simpl in Hb.
    rewrite Hsd, (map_size_1_lookup ma _ _ Hma Hdiam), (map_size_1_lookup mb _ _ Hb Hnc).
    done.
  - simpl. destruct (size m =? 2)%nat; done.
Qed.

(** The errors [check_mode_json] raises are [std::runtime_error]s with
    one exception: a size_dist that is a mapping of two keys makes
    [sd[0]] throw the JSON library's type error 305. *)
Lemma check_mode_json_error_kinds mode e :
  AeroMode.check_mode_json (JObject mode) = throw e →
  (∃ what, e = runtime_error what)
  ∨ (e = json_type_error 305
     ∧ ∃ m, mode !! "size_dist" = Some (JObject m) ∧ size m = 2%nat).
Proof.
  unfold AeroMode.check_mode_json. rewrite check_required_keys_spec.
  destruct (mode !! "mass_frac") as [mf|] eqn:Hmf; [|intros [= <-]; left; by eexists].
  destruct (mode !! "mode_type") as [t|] eqn:Ht; [|intros [= <-]; left; by eexists].
  simpl. unfold Json.at_key, Json.find. rewrite Hmf, Ht. simpl.
  destruct (negb (Json.is_array mf)); [intros [= <-]; left; by eexists|].
  destruct (negb (InputJSONResource.unique_keys mf)); [intros [= <-]; left; by eexists|].
  destruct (Json.eq_string t "sampled"); [|done].
  destruct (mode !! "size_dist") as [sd|] eqn:Hsd; [|intros [= <-]; left; by eexists].
  simpl. destruct sd as [| | | | |l|m]; try (simpl; intros [= <-]; left; by eexists).
  - destruct l as [|a [|b [|c l]]]; try (simpl; intros [= <-]; left; by eexists). simpl.
    destruct a as [| | | | | |ma]; try (simpl; intros [= <-]; left; by eexists). simpl.
    destruct (size ma =? 1)%nat; [|simpl; intros [= <-]; left; by eexists]. simpl.
    destruct (Json.size b =? 1)%nat; [|simpl; intros [= <-]; left; by eexists]. simpl.
    destruct (ma !! "diam") as [diam|]; [|simpl; intros [= <-]; left; by eexists]. simpl.
    destruct b as [| | | | | |mb]; try (simpl; intros [= <-]; left; by eexists). simpl.
    destruct (mb !! "num_conc") as [num_conc|]; [|simpl; intros [= <-]; left; by eexists].
    simpl. destruct (Json.size diam =? Json.size num_conc + 1)%nat; [done|].
    simpl. intros [= <-]. left. by eexists.
  - simpl. destruct (size m =? 2)%nat eqn:Hm; simpl; intros [= <-].
    + right. split; [done|]. exists m. by apply Nat.eqb_eq in Hm.
    + left. by eexists.
Qed.

(** What the code enforces for a mode document with mode_type "sampled":
    construction succeeds only if size_dist is a sequence of two
    single-key mappings keyed diam and num_conc with one more diameter
    than number concentrations; a violation makes the construction raise
    a [std::runtime_error], or, when size_dist is a mapping of two keys,
    the type error 305 of the JSON library.  [set_sampled] requires the
    same relation of its two arrays (lengths that fit a C [int]) and
    raises an error otherwise, without calling the engine. *)
Lemma sampled_size_dist_enforced aero_data name mode w :
  mode !! "mode_type" = Some (JString "sampled") →
  (is_ok (fst (AeroMode.AeroMode aero_data (JObject {[ name := JObject mode ]}) w)) = true →
     sampled_size_dist_ok mode)
  ∧ (¬ sampled_size_dist_ok mode →
     ∃ e, AeroMode.AeroMode aero_data (JObject {[ name := JObject mode ]}) w
          = (throw e, rejected w)
          ∧ ((∃ what, e = runtime_error what)
             ∨ (e = json_type_error 305
                ∧ ∃ m, mode !! "size_dist" = Some (JObject m) ∧ size m = 2%nat)))
  ∧ (∀ self (sample_diams sample_num_conc : list float),
       Z.of_nat (length sample_diams) ≤ CInt.INT_MAX →
       Z.of_nat (length sample_num_conc) ≤ CInt.INT_MAX →
       length sample_diams ≠ (length sample_num_conc + 1)%nat →
       AeroMode.set_sampled self sample_diams sample_num_conc w
       = (throw (runtime_error "Diameter and number size mismatch"), w)).
Proof.
  intros Htype. pose proof (check_mode_json_sampled mode Htype) as Hcheck.
  pose proof (check_mode_json_error_kinds mode) as Hkinds.
  rewrite AeroMode_well_shaped. simpl.
  destruct (AeroMode.check_mode_json (JObject mode)) as [[]|e].
  - split; [auto|]. split; [|intros; by apply set_sampled_mismatch].
    intros Hbad. destruct Hbad. by apply Hcheck.
  - split; [done|]. split; [|intros; by apply set_sampled_mismatch].
    intros _. exists e. split; [done|]. by apply Hkinds.
Qed.

(** C2, as the code has it: a mode document whose mass_frac list names
    a species twice is rejected with a [std::runtime_error] before
    [f_aero_mode_from_json] or any other entry point is called on the
    handle; the handle itself was acquired by the member initialiser
    before validation started, and it is destroyed while the exception
    propagates, so that the only boundary calls are the constructor and
    the destructor of the handle and no foreign object is left
    behind. *)
Theorem duplicate_species_rejected aero_data name mode (l : list json) w :
  mode !! "mass_frac" = Some (JArray l) →
  duplicate_keys l →
  ∃ what,
    AeroMode.AeroMode aero_data (JObject {[ name := JObject mode ]}) w
    = (throw (runtime_error what), rejected w)
    ∧ trace (rejected w) = trace w ++ [f_aero_mode_ctor; f_aero_mode_dtor].
Proof.
  intros Hmf Hdup. apply duplicate_keys_not_unique in Hdup.
  assert (∃ what, AeroMode.check_mode_json (JObject mode) = throw (runtime_error what))
    as [what Hcheck].
  { unfold AeroMode.check_mode_json. rewrite check_required_keys_spec, Hmf.
    destruct (mode !! "mode_type"); [|by eexists]. simpl.
    unfold Json.at_key, Json.find. rewrite Hmf. simpl in Hdup |- *.
    rewrite Hdup. simpl. by eexists. }
  exists what. rewrite AeroMode_well_shaped. simpl. rewrite Hcheck.
  split; [done|]. unfold rejected, after; simpl. by rewrite <- app_assoc.
Qed.

End Sampled.

(** The examples of the specification: three diameters with two number
    concentrations are accepted, two with two are not. *)
Example sampled_three_two_accepted :
  fst (AeroMode.AeroMode aero_data0
         (mode_doc [species "SO4" 1] "sampled" (size_dist [1; 2; 3] [10; 20]))
         Stub.world0)
  = ok live_mode.
Proof. vm_compute. reflexivity. Qed.

Example sampled_two_two_rejected :
  fst (AeroMode.AeroMode aero_data0
         (mode_doc [species "SO4" 1] "sampled" (size_dist [1; 2] [10; 20]))
         Stub.world0)
  = throw (runtime_error "size_dist['num_conc'] must have len(size_dist['diam'])-1 elements").
Proof. vm_compute. reflexivity. Qed.

Lemma sampled_size_dist_enforced_witness :
  sampled_size_dist_ok (mode_params [species "SO4" 1] "sampled" (size_dist [1; 2; 3] [10; 20]))
  ∧ AeroMode.set_sampled live_mode [1; 2]%float [10; 20]%float Stub.world0
    = (throw (runtime_error "Diameter and number size mismatch"), Stub.world0).
Proof.
  destruct (sampled_size_dist_enforced aero_data0 "mode_a"
              (mode_params [species "SO4" 1] "sampled" (size_dist [1; 2; 3] [10; 20]))
              Stub.world0 eq_refl) as (Hok & _ & Hset).
  split.
  - apply Hok. vm_compute. reflexivity.
  - apply Hset; vm_compute; discriminate.
Defined.

(** C1 fails on the code at one input.  The claim has every violation
    of the size_dist shape raise the schema error, the
    [std::runtime_error] the wrapper throws; on a sampled mode whose
    size_dist is one mapping holding both keys the shape is violated and
    the constructor ends in the JSON library's type error 305 instead:
    [sd.size() != 2] does not fire on a mapping of two keys, and [sd[0]]
    is then evaluated on a mapping, before the wrapper's own shape error
    can be raised.  The handle is still destroyed while unwinding. *)
Theorem sampled_size_dist_mapping_type_error :
  side_by_side_mode !! "mode_type" = Some (JString "sampled")
  ∧ ¬ sampled_size_dist_ok side_by_side_mode
  ∧ AeroMode.check_mode_json (JObject side_by_side_mode) = throw (json_type_error 305)
  ∧ AeroMode.AeroMode aero_data0 (JObject {[ "mode_a" := JObject side_by_side_mode ]})
      Stub.world0
    = (throw (json_type_error 305), rejected Stub.world0)
  ∧ ∀ what, json_type_error 305 ≠ runtime_error what.
Proof.
  split; [reflexivity|]. split.
  - intros (diam & num_conc & Hsd & _).
    assert (Json.is_array <$> side_by_side_mode !! "size_dist" = Some false) as Hobj
      by reflexivity.
    rewrite Hsd in Hobj. discriminate Hobj.
  - split; [vm_compute; reflexivity|]. split; [vm_compute; reflexivity|].
    intros what Heq. discriminate Heq.
Qed.

Lemma construction_requires_single_entry_mapping_witness :
  AeroMode.AeroMode aero_data0 (JArray [JString "mode_a"]) Stub.world0
  = (throw single_element_error, rejected Stub.world0).
Proof.
  apply (construction_requires_single_entry_mapping aero_data0
           (JArray [JString "mode_a"]) Stub.world0).
  left. reflexivity.
Defined.

Lemma missing_required_key_rejected_witness :
  ∃ missing,
    missing ∈ AeroMode.required_keys
    ∧ ({[ "mass_frac" := JArray [species "SO4" 1] ]} : gmap string json) !! missing = None
    ∧ AeroMode.AeroMode aero_data0
        (JObject {[ "mode_a" := JObject {[ "mass_frac" := JArray [species "SO4" 1] ]} ]})
        Stub.world0
      = (throw (runtime_error
                  ("mode parameters dict must include key '" +:+ missing +:+ "'")),
         rejected Stub.world0).
Proof.
  destruct (missing_required_key_rejected aero_data0 "mode_a"
              {[ "mass_frac" := JArray [species "SO4" 1] ]} "mode_type" Stub.world0)
    as (missing & Hreq & Hnone & _ & Hthrow).
  - apply (bool_decide_unpack _). reflexivity.
  - reflexivity.
  - exists missing. split; [exact Hreq|]. split; [exact Hnone | exact Hthrow].
Defined.

(** A document that names the species SO4 twice. *)
Lemma dup_doc_duplicate_keys : duplicate_keys [species "SO4" 1; species "SO4" 2].
Proof.
  exists 0%nat, 1%nat, {[ "SO4" := JInt 1 ]}, {[ "SO4" := JInt 2 ]}, "SO4".
  split; [discriminate|]. split; [reflexivity|]. split; [reflexivity|].
  split; eexists; reflexivity.
Qed.

Lemma duplicate_species_rejected_witness :
  ∃ what,
    AeroMode.AeroMode aero_data0
      (mode_doc [species "SO4" 1; species "SO4" 2] "log_normal" ∅) Stub.world0
    = (throw (runtime_error what), rejected Stub.world0)
    ∧ trace (rejected Stub.world0) = trace Stub.world0 ++ [f_aero_mode_ctor; f_aero_mode_dtor].
Proof.
  apply (duplicate_species_rejected aero_data0 "mode_a"
           (mode_params [species "SO4" 1; species "SO4" 2] "log_normal" ∅)
           [species "SO4" 1; species "SO4" 2] Stub.world0).
  - reflexivity.
  - exact dup_doc_duplicate_keys.
Defined.

(** C2 as the specification words it does not hold: on a document with a
    duplicated species the error is raised, yet the boundary has been
    crossed twice by then, by the constructor and by the destructor of
    the handle. *)
Lemma duplicate_species_foreign_calls_counterexample :
  duplicate_keys [species "SO4" 1; species "SO4" 2]
  ∧ AeroMode.AeroMode aero_data0
      (mode_doc [species "SO4" 1; species "SO4" 2] "log_normal" ∅) Stub.world0
    = (throw (runtime_error "mass_frac keys must be unique"),
       World Stub.init [f_aero_mode_ctor; f_aero_mode_dtor])
  ∧ ¬ (∀ l mode_type more,
         duplicate_keys l →
         ∃ e, AeroMode.AeroMode aero_data0 (mode_doc l mode_type more) Stub.world0
              = (throw e, Stub.world0)).
Proof.
  assert (AeroMode.AeroMode aero_data0
            (mode_doc [species "SO4" 1; species "SO4" 2] "log_normal" ∅) Stub.world0
          = (throw (runtime_error "mass_frac keys must be unique"),
             World Stub.init [f_aero_mode_ctor; f_aero_mode_dtor])) as Hrun
    by (vm_compute; reflexivity).
  split; [exact dup_doc_duplicate_keys|]. split; [exact Hrun|].
  intros Hclaim.
  destruct (Hclaim _ "log_normal" ∅ dup_doc_duplicate_keys) as [e He].
  rewrite Hrun in He. discriminate He.
Qed.

(** ** Lifetime of the handle *)

Section HandleLifetime.
Context {S : Type} `{!Engine S}.
Implicit Types (w : world S) (h : PMCResource.t).

Lemma dtor_calls_app tr1 tr2 :
  dtor_calls (tr1 ++ tr2) = (dtor_calls tr1 + dtor_calls tr2)%nat.
Proof. induction tr1 as [|c tr1 IH]; simpl; [done|]. rewrite IH. lia. Qed.

Lemma dtor_calls_after c w :
  dtor_calls (trace (after c w))
  = (dtor_calls (trace w) + if is_dtor c then 1 else 0)%nat.
Proof. unfold after; simpl. rewrite dtor_calls_app. simpl. lia. Qed.

(** Once released, a handle stays released and is silent. *)
Lemma releases_released n h w :
  PMCResource.released h = true → releases n h w = (ok h, w).
Proof.
  intros Hrel. induction n as [|n IH]; simpl; [done|].
  unfold bind, PMCResource.release. rewrite Hrel. simpl. exact IH.
Qed.

Lemma lifetime_released n h w :
  PMCResource.released h = true → lifetime n h w = (ok tt, w).
Proof.
  intros Hrel. unfold lifetime, bind. rewrite releases_released by done.
  unfold PMCResource.teardown, PMCResource.release, bind. by rewrite Hrel.
Qed.

(** A live handle runs its destructor at the first release, explicit
    or not, and never again. *)
Lemma lifetime_live n h w :
  PMCResource.released h = false →
  lifetime n h w = (ok tt, after (PMCResource.f_dtor h) w).
Proof.
  intros Hlive. destruct n as [|n].
  - unfold lifetime, bind; simpl.
    unfold PMCResource.teardown, PMCResource.release, bind, call, ret.
    by rewrite Hlive.
  - unfold lifetime, bind; simpl.
    unfold bind at 1. unfold PMCResource.release at 1. rewrite Hlive.
    unfold bind, call, ret; simpl.
    rewrite releases_released by done.
    unfold PMCResource.teardown, PMCResource.release, bind, ret. reflexivity.
Qed.

Lemma releases_at_most_once n h w :
  PMCResource.released h = false →
  trace (snd (releases n h w)) = trace w
  ∨ trace (snd (releases n h w)) = trace w ++ [PMCResource.f_dtor h].
Proof.
  intros Hlive. destruct n as [|n]; simpl; [by left|]. right.
  unfold bind at 1. unfold PMCResource.release at 1. rewrite Hlive.
  unfold bind, call, ret; simpl. by rewrite releases_released.
Qed.

(** The ways the constructor can end. *)
Lemma AeroMode_outcomes (aero_data : AeroData.t) (doc : json) w :
  let w1 := after f_aero_mode_ctor w in
  let w2 := after (f_aero_mode_from_json (AeroData.ptr aero_data) doc) w1 in
  (∃ e, AeroMode.AeroMode aero_data doc w = (throw e, after f_aero_mode_dtor w1))
  ∨ (∃ e, AeroMode.AeroMode aero_data doc w = (throw e, after f_aero_mode_dtor w2))
  ∨ AeroMode.AeroMode aero_data doc w = (ok live_mode, w2).
Proof.
  intros w1 w2.
  unfold AeroMode.AeroMode, PMCResource.acquire, PMCResource.teardown,
    PMCResource.release, bind, call, ret, unwind, lift, observe, raise.
  fold w1. simpl.
  destruct (_ ||? _) as [[]|e]; simpl; [left; by eexists| |left; by eexists].
  destruct (Json.begin_value doc) as [mode|e]; simpl; [|left; by eexists].
  destruct (AeroMode.check_mode_json mode) as [[]|e]; simpl; [|left; by eexists].
  fold w2.
  destruct (check_parameters _ _) as [[]|e]; simpl.
  - right; right. reflexivity.
  - right; left. by eexists.
Qed.

(** C8: the foreign destructor of a handle runs at most once.  After
    the handle is acquired, any number of explicit releases add at most
    one destructor call to the log; followed by the teardown at the end
    of the lifetime they add exactly one.  The same holds on every way
    out of the constructor of [AeroMode]: when it throws, unwinding has
    run the destructor once; when it returns, the rest of the lifetime
    runs it once. *)
Theorem destructor_called_at_most_once (n : nat) w :
  (dtor_calls (trace (snd ((let* h := PMCResource.acquire f_aero_mode_ctor f_aero_mode_dtor in
                            releases n h) w)))
   ≤ dtor_calls (trace w) + 1)%nat
  ∧ dtor_calls (trace (snd ((let* h := PMCResource.acquire f_aero_mode_ctor f_aero_mode_dtor in
                             lifetime n h) w)))
    = (dtor_calls (trace w) + 1)%nat
  ∧ (∀ aero_data doc,
       match AeroMode.AeroMode aero_data doc w with
       | (ok self, w') =>
           dtor_calls (trace w') = dtor_calls (trace w)
           ∧ dtor_calls (trace (snd (lifetime n (AeroMode.ptr self) w')))
             = (dtor_calls (trace w) + 1)%nat
       | (throw _, w') => dtor_calls (trace w') = (dtor_calls (trace w) + 1)%nat
       end).
Proof.
  split; [|split].
  - unfold PMCResource.acquire, bind at 1 2, call, ret.
    destruct (releases_at_most_once n
                (PMCResource.Handle f_aero_mode_ctor f_aero_mode_dtor false)
                (after f_aero_mode_ctor w) eq_refl) as [-> | ->];
      unfold after; simpl; rewrite !dtor_calls_app; simpl; lia.
  - unfold PMCResource.acquire, bind at 1 2, call, ret.
    rewrite lifetime_live by done.
    unfold after; simpl; rewrite !dtor_calls_app; simpl; lia.
  - intros aero_data doc.
    destruct (AeroMode_outcomes aero_data doc w) as [[e ->] | [[e ->] | ->]].
    + unfold after; simpl; rewrite !dtor_calls_app; simpl; lia.
    + unfold after; simpl; rewrite !dtor_calls_app; simpl; lia.
    + rewrite lifetime_live by done.
      unfold after; simpl; rewrite !dtor_calls_app; simpl; lia.
Qed.

End HandleLifetime.

(** Explicit release followed by the end-of-life teardown, on the stub:
    one destructor call. *)
Example release_then_teardown_once :
  dtor_calls (trace (snd ((let* h := PMCResource.acquire f_aero_mode_ctor f_aero_mode_dtor in
                           lifetime 1 h) Stub.world0))) = 1%nat.
Proof. reflexivity. Qed.

(** * Further properties of the wrapper *)

(** ** The size-then-fill getters *)

Section BufferExchange.
Context {S : Type} `{!Engine S}.
Implicit Types (self : AeroMode.t) (w : world S).

Lemma fill_lookup (buf : list float) written (i : nat) :
  AeroMode.fill buf written !! i = (λ old, default old (written i)) <$> buf !! i.
Proof. unfold AeroMode.fill. apply list_lookup_imap. Qed.

Lemma fill_zeros_lookup (n i : nat) written :
  (i < n)%nat →
  AeroMode.fill (replicate n 0%float) written !! i = Some (default 0%float (written i)).
Proof.
  intros Hi. rewrite fill_lookup, lookup_replicate_2 by done. reflexivity.
Qed.

Lemma valarray_zeros (len : int) :
  0 ≤ int_val len →
  AeroMode.valarray len = ok (replicate (Z.to_nat (int_val len)) 0%float).
Proof.
  intros Hlen. unfold AeroMode.valarray.
  destruct (Z.ltb_spec (int_val len) 0); [lia|reflexivity].
Qed.

Lemma fill_with_list (buf data : list float) :
  length buf = length data →
  AeroMode.fill buf (λ i, data !! i) = data.
Proof.
  intros Hlen. apply list_eq. intros i. rewrite fill_lookup.
  destruct (data !! i) as [x|] eqn:Hx.
  - destruct (buf !! i) as [old|] eqn:Hold; [done|].
    apply lookup_ge_None in Hold. apply lookup_lt_Some in Hx. lia.
  - destruct (buf !! i) as [old|] eqn:Hold; [|done].
    apply lookup_ge_None in Hx. apply lookup_lt_Some in Hold. lia.
Qed.

(** X1: [get_vol_frac] and [get_vol_frac_std] follow the two-call
    protocol.  With a species count [n ≥ 0] reported by the n_spec query,
    each makes exactly that query and then one fill call carrying [n],
    and returns [n] elements: at every index what the engine wrote there,
    and 0 where the engine wrote nothing. *)
Theorem get_vol_frac_size_then_fill self w :
  let w1 := after f_aero_mode_get_n_spec w in
  let len := out_n_spec (foreign w1) in
  let w2 := after (f_aero_mode_get_vol_frac len) w1 in
  let w2' := after (f_aero_mode_get_vol_frac_std len) w1 in
  0 ≤ int_val len →
  ∃ data data_std : list float,
    AeroMode.get_vol_frac self w = (ok data, w2)
    ∧ AeroMode.get_vol_frac_std self w = (ok data_std, w2')
    ∧ length data = Z.to_nat (int_val len)
    ∧ length data_std = Z.to_nat (int_val len)
    ∧ (∀ i : nat, (i < Z.to_nat (int_val len))%nat →
         data !! i = Some (default 0%float (out_vol_frac (foreign w2) len i))
         ∧ data_std !! i = Some (default 0%float (out_vol_frac_std (foreign w2') len i))).
Proof.
  intros w1 len w2 w2' Hlen.
  unfold AeroMode.get_vol_frac, AeroMode.get_vol_frac_std, bind, call, observe, lift, ret.
  fold w1. fold len. rewrite (valarray_zeros len Hlen). fold w2. fold w2'.
  eexists _, _. split; [reflexivity|]. split; [reflexivity|].
  rewrite !fill_length, !length_replicate. split; [done|]. split; [done|].
  intros i Hi. by rewrite !fill_zeros_lookup.
Qed.

(** X2: the sampled-distribution getters return what the engine wrote:
    with [n ≥ 0] bins reported (below INT_MAX), element [i] of
    [get_sample_num_conc] ([i < n]) and of [get_sample_radius]
    ([i < n + 1]) is the value written at index [i] by the fill call, or
    0 where nothing was written; [get_sample_num_conc] makes the bins
    query and one fill call carrying [n]. *)
Theorem sample_getters_contents self w :
  let w1 := after f_aero_mode_get_sample_bins w in
  let n := out_sample_bins (foreign w1) in
  let w2 := after (f_aero_mode_get_sample_num_conc n) w1 in
  let w2' := after (f_aero_mode_get_sample_radius (CInt.succ n)) w1 in
  0 ≤ int_val n < CInt.INT_MAX →
  ∃ sample_num_conc sample_radius : list float,
    AeroMode.get_sample_num_conc self w = (ok sample_num_conc, w2)
    ∧ AeroMode.get_sample_radius self w = (ok sample_radius, w2')
    ∧ (∀ i : nat, (i < Z.to_nat (int_val n))%nat →
         sample_num_conc !! i
         = Some (default 0%float (out_sample_num_conc (foreign w2) n i)))
    ∧ (∀ i : nat, (i ≤ Z.to_nat (int_val n))%nat →
         sample_radius !! i
         = Some (default 0%float (out_sample_radius (foreign w2') (CInt.succ n) i))).
Proof.
  intros w1 n w2 w2' Hn.
  assert (int_val (CInt.succ n) = int_val n + 1) as Hsucc by (apply int_val_succ; lia).
  unfold AeroMode.get_sample_num_conc, AeroMode.get_sample_radius,
    bind, call, observe, lift, ret.
  fold w1. fold n.
  rewrite (valarray_zeros n), (valarray_zeros (CInt.succ n)) by lia.
  fold w2. fold w2'.
  eexists _, _. split; [reflexivity|]. split; [reflexivity|]. split.
  - intros i Hi. by rewrite fill_zeros_lookup.
  - intros i Hi. rewrite fill_zeros_lookup; [done|]. rewrite Hsucc. lia.
Qed.

Lemma set_vol_frac_dimension_match self (data : list float) w :
  Z.of_nat (length data) ≤ CInt.INT_MAX →
  Z.of_nat (length data) = int_val (out_n_spec (foreign (after f_aero_mode_get_n_spec w))) →
  ∃ len, int_val len = Z.of_nat (length data)
    ∧ AeroMode.set_vol_frac self data w
      = (ok tt, after (f_aero_mode_set_vol_frac data len) (after f_aero_mode_get_n_spec w))
    ∧ AeroMode.set_vol_frac_std self data w
      = (ok tt, after (f_aero_mode_set_vol_frac_std data len)
                  (after f_aero_mode_get_n_spec w)).
Proof.
  intros Hmax Heq. exists (CInt.of_Z (Z.of_nat (length data))).
  pose proof (length_as_int data Hmax) as Hint. split; [done|].
  unfold AeroMode.set_vol_frac, AeroMode.set_vol_frac_std, bind, call, observe, CInt.eqb.
  rewrite Hint. apply Z.eqb_eq in Heq. rewrite Heq. simpl. done.
Qed.

(** X3: volume fractions survive the round trip.  On an engine that
    stores them, [set_vol_frac] with an array as long as the species
    count followed by [get_vol_frac] returns the same array; likewise
    for the standard deviations. *)
Theorem vol_frac_set_get_roundtrip self (data : list float) w :
  stores_vol_frac S →
  Z.of_nat (length data) = int_val (out_n_spec (foreign (after f_aero_mode_get_n_spec w))) →
  fst ((AeroMode.set_vol_frac self data ;;; AeroMode.get_vol_frac self) w) = ok data
  ∧ fst ((AeroMode.set_vol_frac_std self data ;;; AeroMode.get_vol_frac_std self) w)
    = ok data.
Proof.
  intros (Hq & Hset & Hvf & Hvfs) Hlen.
  assert (Z.of_nat (length data) ≤ CInt.INT_MAX) as Hmax
    by (rewrite Hlen; apply int_val_bounds).
  destruct (set_vol_frac_dimension_match self data w Hmax Hlen)
    as (len & Hlenv & Hs & Hss).
  assert (0 ≤ int_val len) as Hpos by lia.
  assert (length (replicate (Z.to_nat (int_val len)) 0%float) = length data) as Hbuf
    by (rewrite length_replicate; lia).
  split.
  - unfold bind at 1. rewrite Hs.
    unfold AeroMode.get_vol_frac, bind, call, observe, lift, ret, after; simpl.
    assert (out_n_spec
              (step (step (step (foreign w) f_aero_mode_get_n_spec)
                          (f_aero_mode_set_vol_frac data len)) f_aero_mode_get_n_spec)
            = len) as ->.
    { rewrite Hq, (proj1 (Hset _ _ _)). apply int_val_inj.
      unfold after in Hlen; simpl in Hlen. lia. }
    rewrite valarray_zeros by done. simpl. f_equal.
    rewrite <- (fill_with_list _ data Hbuf) at 2.
    unfold AeroMode.fill. apply imap_ext. intros i old _. simpl.
    by rewrite Hvf.
  - unfold bind at 1. rewrite Hss.
    unfold AeroMode.get_vol_frac_std, bind, call, observe, lift, ret, after; simpl.
    assert (out_n_spec
              (step (step (step (foreign w) f_aero_mode_get_n_spec)
                          (f_aero_mode_set_vol_frac_std data len)) f_aero_mode_get_n_spec)
            = len) as ->.
    { rewrite Hq, (proj2 (Hset _ _ _)). apply int_val_inj.
      unfold after in Hlen; simpl in Hlen. lia. }
    rewrite valarray_zeros by done. simpl. f_equal.
    rewrite <- (fill_with_list _ data Hbuf) at 2.
    unfold AeroMode.fill. apply imap_ext. intros i old _. simpl.
    by rewrite Hvfs.
Qed.

End BufferExchange.

Lemma stub_stores_vol_frac : stores_vol_frac Stub.state.
Proof.
  split; [by intros []|]. split; [by intros []|]. split; by intros [].
Qed.

Lemma get_vol_frac_size_then_fill_witness :
  ∃ data : list float,
    AeroMode.get_vol_frac live_mode vol_frac_world
    = (ok data, after (f_aero_mode_get_vol_frac (CInt.of_Z 3))
                  (after f_aero_mode_get_n_spec vol_frac_world))
    ∧ length data = 3%nat
    ∧ data !! 0%nat = Some 0.5%float
    ∧ data !! 2%nat = Some 0%float.
Proof.
  destruct (get_vol_frac_size_then_fill live_mode vol_frac_world)
    as (data & data_std & Hget & _ & Hlen & _ & Hat).
  { vm_compute. discriminate. }
  exists data. split; [exact Hget|]. split; [exact Hlen|]. split.
  - apply (Hat 0%nat). vm_compute. lia.
  - apply (Hat 2%nat). vm_compute. lia.
Defined.

Lemma sample_getters_contents_witness :
  ∃ sample_num_conc sample_radius : list float,
    fst (AeroMode.get_sample_num_conc live_mode sampled_world) = ok sample_num_conc
    ∧ fst (AeroMode.get_sample_radius live_mode sampled_world) = ok sample_radius
    ∧ sample_num_conc !! 1%nat = Some 20%float
    ∧ sample_radius !! 2%nat = Some 3%float.
Proof.
  destruct (sample_getters_contents live_mode sampled_world)
    as (c & r & Hc & Hr & Hci & Hri).
  { vm_compute. split; [discriminate | reflexivity]. }
  exists c, r. rewrite Hc, Hr. split; [reflexivity|]. split; [reflexivity|]. split.
  - apply (Hci 1%nat). vm_compute. lia.
  - apply (Hri 2%nat). vm_compute. lia.
Defined.

Lemma vol_frac_set_get_roundtrip_witness :
  fst ((AeroMode.set_vol_frac live_mode [0.5; 0.25; 0.25]%float
        ;;; AeroMode.get_vol_frac live_mode) Stub.world0)
  = ok [0.5; 0.25; 0.25]%float.
Proof.
  apply (vol_frac_set_get_roundtrip live_mode [0.5; 0.25; 0.25]%float Stub.world0
           stub_stores_vol_frac).
  reflexivity.
Defined.

(** ** The sampled setter and the type codes *)

Section SettersMore.
Context {S : Type} `{!Engine S}.
Implicit Types (self : AeroMode.t) (w : world S) (name : string).

(** X4: [set_sampled] (array lengths that fit a C [int]) succeeds
    exactly when there is one more diameter than number concentrations;
    it then makes a single boundary call that passes both arrays
    unchanged and, as [arr_size], the number of diameters. *)
Theorem set_sampled_passes_edge_count self (sample_diams sample_num_conc : list float) w :
  Z.of_nat (length sample_diams) ≤ CInt.INT_MAX →
  Z.of_nat (length sample_num_conc) ≤ CInt.INT_MAX →
  (is_ok (fst (AeroMode.set_sampled self sample_diams sample_num_conc w)) = true
   ↔ length sample_diams = (length sample_num_conc + 1)%nat)
  ∧ (length sample_diams = (length sample_num_conc + 1)%nat →
     ∃ len, int_val len = Z.of_nat (length sample_diams)
       ∧ AeroMode.set_sampled self sample_diams sample_num_conc w
         = (ok tt, after (f_aero_mode_set_sampled sample_diams sample_num_conc len) w)).
Proof.
  intros Hd Hn. split; [|by apply set_sampled_match].
  destruct (decide (length sample_diams = (length sample_num_conc + 1)%nat)) as [Heq|Hne].
  - destruct (set_sampled_match self _ _ w Hd Heq) as (len & _ & ->). done.
  - rewrite set_sampled_mismatch by done. done.
Qed.

(** X5: [set_type] either raises [std::invalid_argument] without
    touching the engine (the name is not in [types]) or makes one
    boundary call whose code is the one-based position of the name in
    [types]; the engine is never handed a code outside 1..4. *)
Theorem set_type_passes_position self name w :
  ((name ∉ AeroMode.types)
   ∧ AeroMode.set_type self name w = (throw (invalid_argument "Invalid mode type."), w))
  ∨ (∃ c, 1 ≤ int_val c ≤ 4
        ∧ AeroMode.types !! Z.to_nat (int_val c - 1) = Some name
        ∧ AeroMode.set_type self name w = (ok tt, after (f_aero_mode_set_type c) w)).
Proof.
  destruct (decide (name ∈ AeroMode.types)) as [Hin|Hnin].
  - right. destruct (set_type_known self name w Hin) as (c & Hidx & Hc & Hset). eauto.
  - left. split; [done|]. by apply set_type_unknown.
Qed.

Lemma types_NoDup : NoDup AeroMode.types.
Proof. apply (bool_decide_unpack _). reflexivity. Qed.

(** X6: the code survives the way back.  When the engine reports a code
    in 1..4, the name [get_type] returns makes [set_type] pass that same
    code to the engine. *)
Theorem get_type_set_type_same_code self w :
  let code := out_type (foreign (after f_aero_mode_get_type w)) in
  1 ≤ int_val code ≤ 4 →
  ∃ name,
    fst (AeroMode.get_type self w) = ok name
    ∧ ∀ self' w', AeroMode.set_type self' name w'
                  = (ok tt, after (f_aero_mode_set_type code) w').
Proof.
  intros code Hcode.
  pose proof (get_type_spec self w) as Hget. simpl in Hget.
  change (out_type (step (foreign w) f_aero_mode_get_type)) with code in Hget.
  rewrite bool_decide_eq_true_2 in Hget by done.
  destruct (AeroMode.types !! Z.to_nat (int_val code - 1)) as [name|] eqn:Hidx.
  2: { apply lookup_ge_None in Hidx. simpl in Hidx. lia. }
  exists name. split; [exact Hget|]. intros self' w'.
  destruct (set_type_known self' name w') as (c & Hidx' & Hc & Hset).
  { by apply list_elem_of_lookup_2 in Hidx. }
  assert (c = code) as ->; [|exact Hset].
  apply int_val_inj.
  pose proof (NoDup_lookup _ _ _ _ types_NoDup Hidx Hidx'). lia.
Qed.

End SettersMore.

Lemma set_sampled_passes_edge_count_witness :
  ∃ len, int_val len = 3
    ∧ AeroMode.set_sampled live_mode [1; 2; 3]%float [10; 20]%float Stub.world0
      = (ok tt, after (f_aero_mode_set_sampled [1; 2; 3]%float [10; 20]%float len)
                  Stub.world0).
Proof.
  apply (set_sampled_passes_edge_count live_mode [1; 2; 3]%float [10; 20]%float
           Stub.world0); [vm_compute; discriminate | vm_compute; discriminate | reflexivity].
Defined.

Lemma get_type_set_type_same_code_witness :
  ∃ name,
    fst (AeroMode.get_type live_mode sampled_world) = ok name
    ∧ AeroMode.set_type live_mode name Stub.world0
      = (ok tt, after (f_aero_mode_set_type (CInt.of_Z 4)) Stub.world0).
Proof.
  destruct (get_type_set_type_same_code live_mode sampled_world) as (name & Hget & Hset).
  { vm_compute. split; discriminate. }
  exists name. split; [exact Hget | apply Hset].
Defined.

(** ** More on validation and construction *)

Section ValidationMore.
Context {S : Type} `{!Engine S}.
Implicit Types (w : world S) (aero_data : AeroData.t) (mode : gmap string json).

Lemma mode_doc_shape_dec (doc : json) :
  (∃ name mode, doc = JObject {[ name := JObject mode ]})
  ∨ (∀ name mode, doc ≠ JObject {[ name := JObject mode ]}).
Proof.
  destruct doc as [| | | | | |m]; try (right; intros ??; discriminate).
  destruct (decide (size m = 1%nat)) as [Hsize|Hsize].
  - destruct (map_size_1_singleton m Hsize) as (k & v & ->).
    destruct v as [| | | | | |mode]; [right..|left; by eauto];
      intros name mode' Heq;
      pose proof (f_equal (Json.find k) Heq) as Hl;
      cbv beta iota delta [Json.find] in Hl;
      rewrite lookup_singleton_eq in Hl; symmetry in Hl;
      apply lookup_singleton_Some in Hl as [_ Hl]; discriminate Hl.
  - right. intros name mode Heq. apply Hsize.
    pose proof (f_equal Json.size Heq) as Hs. simpl in Hs.
    by rewrite map_size_singleton in Hs.
Qed.

(** X7: the three ways the JSON constructor ends.  A document that is
    not valid (wrong outer shape, or rejected by [check_mode_json]) is
    refused without [f_aero_mode_from_json] being called: the log gains
    the constructor and destructor of the handle only.  A valid document
    is handed to the engine once, together with the [AeroData] pointer;
    if the parameter check that follows succeeds the live object is
    returned with the handle not released, and if it throws, that
    exception propagates and the handle is destroyed after the
    [f_aero_mode_from_json] call. *)
Theorem constructor_outcomes aero_data doc w :
  let w1 := after f_aero_mode_ctor w in
  let w2 := after (f_aero_mode_from_json (AeroData.ptr aero_data) doc) w1 in
  (¬ valid_mode_doc doc →
     ∃ e, AeroMode.AeroMode aero_data doc w = (throw e, after f_aero_mode_dtor w1))
  ∧ (valid_mode_doc doc →
     match check_parameters (foreign w2) doc with
     | ok _ => AeroMode.AeroMode aero_data doc w = (ok live_mode, w2)
     | throw e => AeroMode.AeroMode aero_data doc w = (throw e, after f_aero_mode_dtor w2)
     end).
Proof.
  intros w1 w2. split.
  - intros Hinvalid.
    destruct (mode_doc_shape_dec doc) as [(name & mode & ->) | Hshape].
    + rewrite AeroMode_well_shaped. simpl.
      destruct (AeroMode.check_mode_json (JObject mode)) as [[]|e] eqn:Hcheck.
      * destruct Hinvalid. by exists name, mode.
      * by exists e.
    + exists single_element_error. by apply AeroMode_ill_shaped.
  - intros (name & mode & -> & Hcheck).
    rewrite AeroMode_well_shaped. simpl. rewrite Hcheck.
    fold w1. fold w2. by destruct (check_parameters _ _) as [[]|e].
Qed.

(** X8: what [check_mode_json] accepts, exactly: mass_frac is present
    and is a list that passes [unique_keys], mode_type is present, and,
    if mode_type is the string "sampled", size_dist has the two-mapping
    shape with one more diameter than number concentrations.  Nothing
    else is looked at; in particular any other value of mode_type is
    accepted. *)
Theorem check_mode_json_accepts_iff mode :
  AeroMode.check_mode_json (JObject mode) = ok tt
  ↔ (∃ l, mode !! "mass_frac" = Some (JArray l)
          ∧ InputJSONResource.unique_keys (JArray l) = true)
    ∧ (∃ t, mode !! "mode_type" = Some t
            ∧ (t = JString "sampled" → sampled_size_dist_ok mode)).
Proof.
  split.
  - intros Hok. pose proof Hok as Hok'. unfold AeroMode.check_mode_json in Hok.
    rewrite check_required_keys_spec in Hok.
    destruct (mode !! "mass_frac") as [mf|] eqn:Hmf; [|done].
    destruct (mode !! "mode_type") as [t|] eqn:Ht; [|done].
    simpl in Hok. unfold Json.at_key, Json.find in Hok. rewrite Hmf in Hok.
    simpl in Hok. destruct mf as [| | | | |l|]; try done. simpl in Hok.
    split.
    + exists l. split; [done|]. simpl.
      by destruct (bool_decide (NoDup (concat (Json.keys <$> l)))).
    + exists t. split; [done|]. intros ->. by apply check_mode_json_sampled.
  - intros [(l & Hmf & Hu) (t & Ht & Hsampled)].
    unfold AeroMode.check_mode_json. rewrite check_required_keys_spec, Hmf, Ht. simpl.
    unfold Json.at_key, Json.find. rewrite Hmf, Ht. simpl in Hu |- *. rewrite Hu. simpl.
    destruct (Json.eq_string t "sampled") eqn:Heq; [|done].
    assert (t = JString "sampled") as ->.
    { destruct t; try done. simpl in Heq. by apply bool_decide_eq_true in Heq as ->. }
    destruct (Hsampled eq_refl) as (diam & num_conc & Hsd & Hlen).
    rewrite Hsd. simpl. rewrite !map_size_singleton, !lookup_singleton_eq. simpl.
    apply Nat.eqb_eq in Hlen. by rewrite Hlen.
Qed.

(** X9: how a sampled mode with a good mass_frac is refused.  Without a
    size_dist key the error says so; a size_dist that is itself a
    mapping of two keys (diam and num_conc side by side, say) ends in the
    JSON library's type error 305, not in a message of the wrapper; a
    well-shaped size_dist with the wrong lengths gets the length message;
    every other size_dist gets the shape message. *)
Theorem sampled_rejections mode (l : list json) :
  mode !! "mass_frac" = Some (JArray l) →
  InputJSONResource.unique_keys (JArray l) = true →
  mode !! "mode_type" = Some (JString "sampled") →
  match mode !! "size_dist" with
  | None =>
      AeroMode.check_mode_json (JObject mode)
      = throw (runtime_error "size_dist key must be set for mode_type=sampled")
  | Some (JObject m) =>
      AeroMode.check_mode_json (JObject mode)
      = throw (if (size m =? 2)%nat then json_type_error 305 else size_dist_shape_error)
  | Some sd =>
      (∀ diam num_conc,
         sd = JArray [JObject {[ "diam" := diam ]}; JObject {[ "num_conc" := num_conc ]}] →
         Json.size diam ≠ (Json.size num_conc + 1)%nat →
         AeroMode.check_mode_json (JObject mode) = throw size_dist_length_error)
      ∧ ((∀ diam num_conc,
            sd ≠ JArray [JObject {[ "diam" := diam ]}; JObject {[ "num_conc" := num_conc ]}]) →
         AeroMode.check_mode_json (JObject mode) = throw size_dist_shape_error)
  end.
Proof.
  intros Hmf Hu Ht.
  assert (∀ sd, mode !! "size_dist" = Some sd →
            AeroMode.check_mode_json (JObject mode)
            = (let? bad :=
                 negb (Json.size sd =? 2)%nat ||?
                 (let? sd0 := Json.index sd 0 in negb (Json.is_object sd0) ||?
                 (let? sd0 := Json.index sd 0 in negb (Json.size sd0 =? 1)%nat ||?
                 (let? sd1 := Json.index sd 1 in negb (Json.size sd1 =? 1)%nat ||?
                 (let? sd0 := Json.index sd 0 in
                  negb (Json.is_Some_b (Json.find "diam" sd0)) ||?
                 (let? sd1 := Json.index sd 1 in
                  ok (negb (Json.is_Some_b (Json.find "num_conc" sd1))))))))
               in
               if bad then throw size_dist_shape_error
               else
                 let? sd0 := Json.index sd 0 in
                 let? sd1 := Json.index sd 1 in
                 if negb (Json.size (Json.deref (Json.find "diam" sd0))
                          =? Json.size (Json.deref (Json.find "num_conc" sd1)) + 1)%nat
                 then throw size_dist_length_error else ok tt)) as Hstep.
  { intros sd Hsd. unfold AeroMode.check_mode_json.
    rewrite check_required_keys_spec, Hmf, Ht. simpl.
    unfold Json.at_key, Json.find. rewrite Hmf, Ht, Hsd. simpl in Hu |- *.
    rewrite Hu. reflexivity. }
  destruct (mode !! "size_dist") as [sd|] eqn:Hsd.
  2: { unfold AeroMode.check_mode_json.
       rewrite check_required_keys_spec, Hmf, Ht. simpl.
       unfold Json.at_key, Json.find. rewrite Hmf, Ht, Hsd. simpl in Hu |- *.
       by rewrite Hu. }
  rewrite (Hstep sd eq_refl). clear Hstep.
  destruct sd as [| | | | |sdl|m]; try (split; [intros ?? [=]|intros _; reflexivity]).
  - split.
    + intros diam num_conc [= ->] Hne. simpl.
      rewrite !map_size_singleton, !lookup_singleton_eq. simpl.
      apply Nat.eqb_neq in Hne. by rewrite Hne.
    + intros Hshape.
      destruct sdl as [|a [|b [|c sdl]]]; try reflexivity. simpl.
      destruct a as [| | | | | |ma]; try reflexivity. simpl.
      destruct (size ma =? 1)%nat eqn:Hma; [|reflexivity]. simpl.
      destruct (Json.size b =? 1)%nat eqn:Hb; [|reflexivity]. simpl.
      destruct (ma !! "diam") as [diam|] eqn:Hdiam; [|reflexivity]. simpl.
      destruct b as [| | | | | |mb]; try reflexivity. simpl.
      destruct (mb !! "num_conc") as [num_conc|] eqn:Hnc; [|reflexivity].
      apply Nat.eqb_eq in Hma, Hb. simpl in Hb.
      destruct (Hshape diam num_conc).
      by rewrite (map_size_1_lookup ma _ _ Hma Hdiam), (map_size_1_lookup mb _ _ Hb Hnc).
  - simpl. by destruct (size m =? 2)%nat.
Qed.

(** X10: validation looks at size_dist only for a sampled mode.  When
    mode_type is anything but the string "sampled", putting any value
    under size_dist does not change what [check_mode_json] returns. *)
Theorem size_dist_ignored_unless_sampled mode (t sd : json) :
  mode !! "mode_type" = Some t →
  t ≠ JString "sampled" →
  AeroMode.check_mode_json (JObject (<[ "size_dist" := sd ]> mode))
  = AeroMode.check_mode_json (JObject mode).
Proof.
  intros Ht Hns.
  assert (Json.eq_string t "sampled" = false) as Heq.
  { destruct t; try done. simpl. apply bool_decide_eq_false_2. congruence. }
  unfold AeroMode.check_mode_json. rewrite !check_required_keys_spec.
  unfold Json.at_key, Json.find.
  rewrite !(lookup_insert_ne mode "size_dist") by done. rewrite Ht. simpl.
  rewrite Heq. reflexivity.
Qed.

End ValidationMore.

Lemma constructor_outcomes_witness :
  AeroMode.AeroMode aero_data0 (mode_doc [species "SO4" 1] "log_normal" ∅) Stub.world0
  = (ok live_mode,
     after (f_aero_mode_from_json 1 (mode_doc [species "SO4" 1] "log_normal" ∅))
       (after f_aero_mode_ctor Stub.world0))
  ∧ ∃ e, AeroMode.AeroMode aero_data0 JNull Stub.world0
         = (throw e, after f_aero_mode_dtor (after f_aero_mode_ctor Stub.world0)).
Proof.
  split.
  - assert (valid_mode_doc (mode_doc [species "SO4" 1] "log_normal" ∅)) as Hvalid.
    { exists "mode_a", (mode_params [species "SO4" 1] "log_normal" ∅).
      split; reflexivity. }
    exact (proj2 (constructor_outcomes aero_data0
                    (mode_doc [species "SO4" 1] "log_normal" ∅) Stub.world0) Hvalid).
  - apply (proj1 (constructor_outcomes aero_data0 JNull Stub.world0)).
    intros (name & mode & Heq & _). discriminate Heq.
Defined.

Lemma check_mode_json_accepts_iff_witness :
  AeroMode.check_mode_json (JObject (mode_params [species "SO4" 1] "bogus" ∅)) = ok tt.
Proof.
  apply (proj2 (check_mode_json_accepts_iff (mode_params [species "SO4" 1] "bogus" ∅))).
  split.
  - exists [species "SO4" 1]. split; reflexivity.
  - exists (JString "bogus"). split; [reflexivity|]. intros Heq. discriminate Heq.
Defined.

Lemma sampled_rejections_witness :
  AeroMode.check_mode_json (JObject side_by_side_mode) = throw (json_type_error 305).
Proof.
  exact (sampled_rejections side_by_side_mode [species "SO4" 1] eq_refl eq_refl eq_refl).
Defined.

Lemma size_dist_ignored_unless_sampled_witness :
  AeroMode.check_mode_json
    (JObject (<[ "size_dist" := JString "junk" ]>
                (mode_params [species "SO4" 1] "log_normal" ∅)))
  = AeroMode.check_mode_json (JObject (mode_params [species "SO4" 1] "log_normal" ∅)).
Proof.
  apply (size_dist_ignored_unless_sampled _ (JString "log_normal")).
  - reflexivity.
  - intros Heq. discriminate Heq.
Defined.

(** ** The name accessors and the binned distribution *)

Section AccessorsFacts.
Context {S : Type} `{!Accessors.XEngine S}.
Implicit Types (self : AeroMode.t) (w : Accessors.xworld S).

Lemma copy_chars_spec (f_ptr : nat → Ascii.ascii) (todo i : nat)
    (name : list Ascii.ascii) :
  length name = (i + todo)%nat →
  Accessors.copy_chars f_ptr i todo name = take i name ++ (f_ptr <$> seq i todo).
Proof.
  revert i name. induction todo as [|todo IH]; intros i name Hlen; simpl.
  - rewrite app_nil_r, take_ge by lia. reflexivity.
  - rewrite IH by (rewrite length_insert; lia).
    rewrite (take_S_r (<[i:=f_ptr i]> name) i (f_ptr i))
      by (apply list_lookup_insert_eq; lia).
    rewrite take_insert_ge by lia. by rewrite <- app_assoc.
Qed.

Lemma length_string_of_list_ascii (l : list Ascii.ascii) :
  String.length (String.string_of_list_ascii l) = length l.
Proof. induction l as [|c l IH]; simpl; [done|]. by rewrite IH. Qed.

Lemma length_list_ascii_of_string (s : string) :
  length (String.list_ascii_of_string s) = String.length s.
Proof. induction s as [|c s IH]; simpl; [done|]. by rewrite IH. Qed.

Lemma get_name_eval self w :
  let w1 := Accessors.xafter Accessors.f_aero_mode_get_name w in
  let size := Accessors.out_name_size (Accessors.engine w1) in
  let f_ptr := Accessors.out_name_data (Accessors.engine w1) in
  0 ≤ int_val size →
  Accessors.get_name self w
  = (Accessors.returns (String.string_of_list_ascii (f_ptr <$> seq 0 (Z.to_nat (int_val size)))),
     w1).
Proof.
  intros w1 size f_ptr Hsize.
  unfold Accessors.get_name, Accessors.xbind, Accessors.xcall_, Accessors.xobserve,
    Accessors.xlift, Accessors.xret, Accessors.resize.
  fold w1. fold size. fold f_ptr.
  destruct (Z.ltb_spec (int_val size) 0) as [|_]; [lia|].
  by rewrite copy_chars_spec by (rewrite length_replicate; lia).
Qed.

(** X11: [get_name] makes one boundary call and, for a reported size
    [n ≥ 0], returns the string of exactly the [n] bytes found behind the
    pointer the engine handed out; with size 0 that is the empty
    string. *)
Theorem get_name_copies_reported_bytes self w :
  let w1 := Accessors.xafter Accessors.f_aero_mode_get_name w in
  let size := Accessors.out_name_size (Accessors.engine w1) in
  let f_ptr := Accessors.out_name_data (Accessors.engine w1) in
  0 ≤ int_val size →
  ∃ name,
    Accessors.get_name self w = (Accessors.returns name, w1)
    ∧ String.list_ascii_of_string name = f_ptr <$> seq 0 (Z.to_nat (int_val size))
    ∧ String.length name = Z.to_nat (int_val size)
    ∧ (int_val size = 0 → name = "").
Proof.
  intros w1 size f_ptr Hsize.
  exists (String.string_of_list_ascii (f_ptr <$> seq 0 (Z.to_nat (int_val size)))).
  split; [by apply get_name_eval|].
  rewrite String.list_ascii_of_string_of_list_ascii. split; [reflexivity|]. split.
  - by rewrite length_string_of_list_ascii, length_fmap, length_seq.
  - intros Hzero. by rewrite Hzero.
Qed.

(** X12: the name survives the round trip.  On an engine that keeps the
    name it is given, [set_name] followed by [get_name] returns the same
    string (a name whose length fits a C [int]); [set_name] passes the
    bytes of the name and their count. *)
Theorem name_set_get_roundtrip self (name : string) w :
  Accessors.stores_name →
  Z.of_nat (String.length name) ≤ CInt.INT_MAX →
  (∃ size, int_val size = Z.of_nat (String.length name)
     ∧ Accessors.set_name self name w
       = (Accessors.returns tt,
          Accessors.xafter (Accessors.f_aero_mode_set_name name size) w))
  ∧ fst (Accessors.xbind (Accessors.set_name self name)
           (fun _ => Accessors.get_name self) w)
    = Accessors.returns name.
Proof.
  intros Hstore Hlen.
  assert (int_val (CInt.of_Z (Z.of_nat (String.length name)))
          = Z.of_nat (String.length name)) as Hint
    by (apply int_val_of_Z_id; unfold CInt.INT_MIN; lia).
  split; [by eexists|].
  unfold Accessors.xbind at 1, Accessors.set_name, Accessors.xcall_.
  set (w1 := Accessors.xafter _ w).
  destruct (Hstore (Accessors.engine w) name (CInt.of_Z (Z.of_nat (String.length name))))
    as [Hsize Hdata].
  rewrite get_name_eval
    by (unfold w1, Accessors.xafter; simpl; rewrite Hsize, Hint; lia).
  cbn [fst]. f_equal.
  transitivity (String.string_of_list_ascii (String.list_ascii_of_string name));
    [|apply String.string_of_list_ascii_of_string].
  f_equal.
  unfold w1, Accessors.xafter; cbn [Accessors.engine]. rewrite Hsize, Hint, Nat2Z.id.
  apply list_eq. intros i. rewrite list_lookup_fmap.
  pose proof (length_list_ascii_of_string name) as Hl.
  destruct (String.list_ascii_of_string name !! i) as [c|] eqn:Hc.
  - rewrite lookup_seq_lt by (apply lookup_lt_Some in Hc; lia). simpl.
    by rewrite (Hdata i c Hc).
  - rewrite lookup_seq_ge by (apply lookup_ge_None in Hc; lia). done.
Qed.

(** X13: [num_dist] follows the two-call protocol against the bin grid.
    It asks [f_bin_grid_size] for the number of bins [n], and for
    [n ≥ 0] makes one [f_aero_mode_num_conc] call carrying the pointers
    of the bin grid and of the species table and [n], returning [n]
    elements: what the engine wrote at each index, 0 where it wrote
    nothing. *)
Theorem num_dist_size_then_fill self (bin_grid : BinGrid.t) (aero_data : AeroData.t) w :
  let w1 := Accessors.xafter (Accessors.f_bin_grid_size (BinGrid.ptr bin_grid)) w in
  let len := Accessors.out_bin_grid_size (Accessors.engine w1) in
  let w2 := Accessors.xafter
              (Accessors.f_aero_mode_num_conc (BinGrid.ptr bin_grid)
                 (AeroData.ptr aero_data) len) w1 in
  0 ≤ int_val len →
  ∃ data : list float,
    Accessors.num_dist self bin_grid aero_data w = (Accessors.returns data, w2)
    ∧ length data = Z.to_nat (int_val len)
    ∧ ∀ i : nat, (i < Z.to_nat (int_val len))%nat →
        data !! i
        = Some (default 0%float (Accessors.out_num_conc (Accessors.engine w2) len i)).
Proof.
  intros w1 len w2 Hlen.
  unfold Accessors.num_dist, Accessors.xbind, Accessors.xcall_, Accessors.xobserve,
    Accessors.xlift, Accessors.xret.
  fold w1. fold len. rewrite (valarray_zeros len Hlen). simpl. fold w2.
  eexists. split; [reflexivity|].
  rewrite fill_length, length_replicate. split; [done|].
  intros i Hi. by rewrite fill_zeros_lookup.
Qed.

End AccessorsFacts.

Lemma stub_stores_name : @Accessors.stores_name Accessors.stub _.
Proof.
  intros s name size. split; [reflexivity|].
  intros i c Hc. simpl. by rewrite Hc.
Qed.

Lemma get_name_copies_reported_bytes_witness :
  ∃ name,
    Accessors.get_name live_mode Accessors.stub0
    = (Accessors.returns name,
       Accessors.xafter Accessors.f_aero_mode_get_name Accessors.stub0)
    ∧ String.length name = 4%nat.
Proof.
  destruct (get_name_copies_reported_bytes live_mode Accessors.stub0)
    as (name & Hget & _ & Hlen & _).
  { vm_compute. discriminate. }
  exists name. split; [exact Hget | exact Hlen].
Defined.

Lemma name_set_get_roundtrip_witness :
  fst (Accessors.xbind (Accessors.set_name live_mode "aitken")
         (fun _ => Accessors.get_name live_mode) Accessors.stub0)
  = Accessors.returns "aitken".
Proof.
  apply (name_set_get_roundtrip live_mode "aitken" Accessors.stub0 stub_stores_name).
  vm_compute. discriminate.
Defined.

Lemma num_dist_size_then_fill_witness :
  ∃ data : list float,
    fst (Accessors.num_dist live_mode {| BinGrid.ptr := 2 |} aero_data0 Accessors.stub0)
    = Accessors.returns data
    ∧ length data = 3%nat
    ∧ data !! 1%nat = Some 200%float
    ∧ data !! 2%nat = Some 0%float.
Proof.
  destruct (num_dist_size_then_fill live_mode {| BinGrid.ptr := 2 |} aero_data0
              Accessors.stub0) as (data & Hrun & Hlen & Hat).
  { vm_compute. discriminate. }
  exists data. rewrite Hrun. split; [reflexivity|]. split; [exact Hlen|]. split.
  - apply (Hat 1%nat). vm_compute. lia.
  - apply (Hat 2%nat). vm_compute. lia.
Defined.
